(** * bitproto rendering framework: shallow embedding and verified properties

    The development embeds two source files of the repository:

    - [compiler/bitproto/renderer/formatter.py]  (module [FormatterPy]),
    - [bitproto/renderer.py]                     (module [RendererPy]),

    together with the one block of [bitproto/renderer/impls/c/renderer_c.py]
    whose [render] pushes nothing ([MessageEncoderBlock]).

    Python values are modelled by inductive types, Python exceptions by the
    [result] type, mutation of a [Block] by explicit state passing, and the
    file system by a log of write events. *)

From Stdlib Require Import List String Ascii ZArith Bool Arith Lia DecimalString.
From Equations Require Import Equations.
From Equations.Prop Require Import Logic.
Import ListNotations.

Open Scope string_scope.
Open Scope list_scope.

Set Warnings "-register-all".

(* ===================================================================== *)
(** * Python runtime: exceptions, [str.join], negative indexing           *)
(* ===================================================================== *)

(** The exception classes the two files raise or catch. *)
Inductive exn : Type :=
| InternalError
| NotImplementedError
| UnsupportedLanguageToRender
| AssertionError
| IndexError
| TypeError
| OSError.

(** The outcome of a call: a returned value or a raised exception. *)
Inductive result (A : Type) : Type :=
| Ok (a : A)
| Raise (e : exn).

Arguments Ok {A} a.
Arguments Raise {A} e.

Definition bind {A B : Type} (c : result A) (k : A -> result B) : result B :=
  match c with
  | Ok a => k a
  | Raise e => Raise e
  end.

Notation "x <- c ;; k" := (bind c (fun x => k))
  (at level 61, c at next level, right associativity).

(** The line feed character, and a string repeated [n] times ([n * s]). *)
Definition LF : string := String (ascii_of_nat 10) "".

Fixpoint repeat_string (n : nat) (s : string) : string :=
  match n with
  | O => ""
  | S n' => (s ++ repeat_string n' s)%string
  end.

(** [sep.join(items)]. *)
Definition join (sep : string) (items : list string) : string :=
  String.concat sep items.

(** [l[-1]] on a list; [None] stands for the [IndexError] of an empty list. *)
Fixpoint last_item {A : Type} (l : list A) : option A :=
  match l with
  | [] => None
  | [x] => Some x
  | _ :: rest => last_item rest
  end.

(** [a or b] on an [Optional[str]]: [None] and the empty string are falsy. *)
Definition str_or (a : option string) (b : string) : string :=
  match a with
  | Some s => if String.eqb s "" then b else s
  | None => b
  end.

(* ===================================================================== *)
(** * The definition tree ([bitproto._ast])                               *)
(* ===================================================================== *)

Module Ast.

(** Modelled from the spec: the classes of [bitproto._ast] are imported by
    both files but their declarations are not part of the sources.  The
    spec (section 3) lists the node kinds; [Proto] and [Message] are
    Scopes, a [BoundScope] is a scope bound to an owning Definition (a
    [Message] or an [Enum]), and the three constant classes specialise
    [Constant]. *)
Inductive Class : Type :=
| CDefinition
| CScope
| CBoundScope
| CProto
| CMessage
| CEnum
| CAlias
| CConstant
| CBooleanConstant
| CStringConstant
| CIntegerConstant
| CEnumField
| CMessageField.

Definition Class_eqb (a b : Class) : bool :=
  match a, b with
  | CDefinition, CDefinition | CScope, CScope | CBoundScope, CBoundScope
  | CProto, CProto | CMessage, CMessage | CEnum, CEnum | CAlias, CAlias
  | CConstant, CConstant | CBooleanConstant, CBooleanConstant
  | CStringConstant, CStringConstant | CIntegerConstant, CIntegerConstant
  | CEnumField, CEnumField | CMessageField, CMessageField => true
  | _, _ => false
  end.

(** Modelled from the spec: the direct base class of each class. *)
Definition base_class (c : Class) : option Class :=
  match c with
  | CDefinition => None
  | CScope => Some CDefinition
  | CBoundScope => Some CScope
  | CProto => Some CScope
  | CMessage => Some CBoundScope
  | CEnum => Some CBoundScope
  | CAlias => Some CDefinition
  | CConstant => Some CDefinition
  | CBooleanConstant => Some CConstant
  | CStringConstant => Some CConstant
  | CIntegerConstant => Some CConstant
  | CEnumField => Some CDefinition
  | CMessageField => Some CDefinition
  end.

(** [issubclass(c, target)]: walk the chain of base classes (at most three
    links in this hierarchy). *)
Fixpoint issubclass_fuel (fuel : nat) (c target : Class) : bool :=
  Class_eqb c target ||
  match fuel with
  | O => false
  | S fuel' =>
      match base_class c with
      | Some b => issubclass_fuel fuel' b target
      | None => false
      end
  end.

Definition issubclass (c target : Class) : bool := issubclass_fuel 3 c target.

(** Modelled from the spec: a [Definition] has a [name] and an ordered
    [scope_stack], the root-to-immediate-parent chain of enclosing scopes.
    A scope is itself a definition and carries its ordered mapping of
    member name to member; members are referred to by object identity
    ([uid]), since Python compares them with [is]. *)
Inductive Defn : Type :=
  Build_Defn {
      uid : nat;
      class_of : Class;
      name : string;
      scope_stack : list Defn;
      members : list (string * nat)
    }.

(** [isinstance(d, classes)] for a tuple of classes. *)
Definition isinstance (d : Defn) (classes : list Class) : bool :=
  existsb (issubclass (class_of d)) classes.

(** Modelled from the spec: [Scope.get_name_by_member], the name under
    which a scope records the given member, if it records it at all. *)
Fixpoint lookup_member (ms : list (string * nat)) (id : nat) : option string :=
  match ms with
  | [] => None
  | (n, id') :: rest => if Nat.eqb id' id then Some n else lookup_member rest id
  end.

Definition get_name_by_member (scope d : Defn) : option string :=
  lookup_member (members scope) (uid d).

(** Nesting depth of a definition: the measure under which a recursive call
    on a member of [scope_stack] decreases. *)
Fixpoint depth (d : Defn) : nat :=
  match d with
  | Build_Defn _ _ _ stack _ =>
      S ((fix depths (l : list Defn) : nat :=
            match l with
            | [] => O
            | s :: rest => Nat.max (depth s) (depths rest)
            end) stack)
  end.

(** The type variants [format_type] dispatches on.  [TOther] stands for an
    instance of a [Type] class that is none of the eight, the input the
    final [raise] (or fallback [return]) of [format_type] is written for. *)
Inductive Ty : Type :=
| TBool
| TByte
| TUint (nbits : Z)
| TInt (nbits : Z)
| TArray (element : Ty) (cap : Z)
| TEnum (d : Defn)
| TMessage (d : Defn)
| TAlias (d : Defn)
| TOther.

(** Modelled from the spec: an integer type carries a byte count,
    [Integer.nbytes()]. *)
Record Integer : Type := Build_Integer { nbytes : Z }.

(** The values a constant can hold, as Python objects; [PyOther] stands for
    an object that is neither a [bool], a [str] nor an [int] (a float,
    [None], ...), tagged with its type name. *)
Inductive Value : Type :=
| PyBool (b : bool)
| PyStr (s : string)
| PyInt (z : Z)
| PyOther (type_name : string).

(** [value is True or value is False]. *)
Definition is_True_or_False (v : Value) : bool :=
  match v with
  | PyBool _ => true
  | _ => false
  end.

(** [isinstance(value, str)]. *)
Definition isinstance_str (v : Value) : bool :=
  match v with
  | PyStr _ => true
  | _ => false
  end.

(** [isinstance(value, int)]: [bool] is a subclass of [int] in Python, so a
    boolean satisfies this predicate too. *)
Definition isinstance_int (v : Value) : bool :=
  match v with
  | PyBool _ | PyInt _ => true
  | _ => false
  end.

(** The integer a value is when handed to an [int] parameter. *)
Definition as_int (v : Value) : Z :=
  match v with
  | PyBool true => 1%Z
  | PyInt z => z
  | _ => 0%Z
  end.

Definition as_bool (v : Value) : bool :=
  match v with
  | PyBool b => b
  | _ => false
  end.

Definition as_str (v : Value) : string :=
  match v with
  | PyStr s => s
  | _ => ""
  end.

End Ast.

(** A Python [dict] as an association list: [d.get(key, default)]. *)
Fixpoint dict_get {K V : Type} (eqb : K -> K -> bool)
         (d : list (K * V)) (key : K) (default : V) : V :=
  match d with
  | [] => default
  | (k, v) :: rest => if eqb k key then v else dict_get eqb rest key default
  end.

(* ===================================================================== *)
(** * [compiler/bitproto/renderer/formatter.py]                           *)
(* ===================================================================== *)

Module FormatterPy.
Import Ast.

Definition CaseStyleConverter : Type := string -> string.

(** An item of a tuple of the case-style table: a [str], or any other
    object, of which only its being hashable matters (it is looked up as a
    key of a [dict]). *)
Inductive TupleItem : Type :=
| ItemStr (s : string)
| ItemObject (repr : string) (hashable : bool).

(** A value of the case-style table.  The declared type is
    [Union[str, Tuple[str, ...], CaseStyleConverter]].  [EntryTuple] is a
    tuple of [str] as declared; [EntryTupleAny] is any tuple, whatever its
    items, which [isinstance(v, tuple)] accepts all the same; [EntryOther]
    stands for an object that is neither a [str], a [tuple] nor a callable
    (it reaches the final [else]). *)
Inductive CaseStyleEntry : Type :=
| EntryStr (case_style_name : string)
| EntryTuple (case_style_names : list string)
| EntryTupleAny (items : list TupleItem)
| EntryCallable (converter : CaseStyleConverter)
| EntryOther (repr : string).

Definition CaseStyleMapping : Type := list (Class * CaseStyleEntry).

Inductive CaseStyle : Type :=
| KEEP
| SNAKE
| UPPER
| PASCAL.

(** Modelled from the spec: [bitproto.utils.keep_case] is not part of the
    sources; the spec calls the keep conversion the identity. *)
Definition keep_case (word : string) : string := word.

Section Utils.

(** The other three converters of [bitproto.utils] are not part of the
    sources either; the spec only says they are pure functions on strings,
    so they are parameters of the development. *)
Variables snake_case upper_case pascal_case : CaseStyleConverter.

(** [CaseStyle.converter]. *)
Definition converter (self : CaseStyle) : CaseStyleConverter :=
  match self with
  | SNAKE => snake_case
  | UPPER => upper_case
  | PASCAL => pascal_case
  | KEEP => keep_case
  end.

(** [CaseStyle.from_name]. *)
Definition from_name (name : string) : CaseStyle :=
  let mapping := [("snake", SNAKE); ("upper", UPPER); ("pascal", PASCAL)] in
  dict_get String.eqb mapping name KEEP.

(** The per-language capability object.  Abstract methods are the fields a
    concrete formatter supplies; an overridable method whose default raises
    [NotImplementedError] is a [result]; an overridable whose default calls
    back into the formatter is an optional override. *)
Record Formatter : Type :=
  Build_Formatter {
      case_style_mapping : CaseStyleMapping;
      indent_character : string;
      support_import_as_member : bool;
      format_import_statement : Defn -> option string -> string;
      format_comment : string -> string;
      format_bool_value : bool -> string;
      format_str_value : string -> string;
      format_int_value : Z -> string;
      format_bool_type : string;
      format_byte_type : string;
      format_uint_type : Ty -> string;
      format_int_type : Ty -> string;
      format_array_type : Ty -> option string -> string;
      format_int_value_type : result string;
      format_string_value_type : result string;
      format_bool_value_type : result string;
      format_enum_type_override : option (Defn -> result string);
      format_message_type_override : option (Defn -> result string);
      format_alias_type_override : option (Defn -> result string);
      delimer_cross_proto : string;
      delimer_inner_proto : string;
      scopes_with_namespace : list Class
    }.

(** Defaults of the overridable constants. *)
Definition default_delimer_cross_proto : string := ".".
Definition default_delimer_inner_proto : string := "_".
Definition default_scopes_with_namespace : list Class := [CMessage; CProto].

(** [Formatter.format_value]: the result is [Ok None] when control falls off
    the end of the [if] chain (Python then returns [None]). *)
Definition format_value (self : Formatter) (value : Value) : result (option string) :=
  if is_True_or_False value then
    Ok (Some (format_bool_value self (as_bool value)))
  else if isinstance_str value then
    Ok (Some (format_str_value self (as_str value)))
  else if isinstance_int value then
    Ok (Some (format_int_value self (as_int value)))
  else Ok None.

(** [Formatter.get_nbits_of_integer], the default implementation. *)
Definition get_nbits_of_integer (t : Integer) : Z :=
  let nbytes := nbytes t in
  if (nbytes =? 1)%Z then 8%Z
  else if (nbytes =? 2)%Z then 16%Z
  else if existsb (Z.eqb nbytes) [3; 4]%Z then 32%Z
  else if existsb (Z.eqb nbytes) [5; 6; 7; 8]%Z then 64%Z
  else (nbytes * 8)%Z.

(** [Formatter._get_definition_name]. *)
Definition _get_definition_name (d : Defn) : string :=
  match last_item (scope_stack d) with
  | None => name d
  | Some scope => str_or (get_name_by_member scope d) (name d)
  end.

(** The [for namespace in namespaces[::-1]] loop of
    [_format_definition_name_inner_proto]; [items.insert(0, x)] conses. *)
Fixpoint namespace_items (reversed_namespaces : list Defn) (items : list string)
  : list string :=
  match reversed_namespaces with
  | [] => items
  | namespace :: rest =>
      if isinstance namespace [CBoundScope] then
        namespace_items rest (_get_definition_name namespace :: items)
      else if isinstance namespace [CProto] then
        items
      else namespace_items rest items
  end.

(** [Formatter._format_definition_name_inner_proto]. *)
Definition _format_definition_name_inner_proto (self : Formatter) (d : Defn) : string :=
  let definition_name := _get_definition_name d in
  let classes_ := scopes_with_namespace self in
  let namespaces := filter (fun scope => isinstance scope classes_) (scope_stack d) in
  if (List.length namespaces <=? 1)%nat then definition_name
  else
    let items := namespace_items (rev namespaces) [definition_name] in
    join (delimer_inner_proto self) items.

(** The [for case_style_name in case_style_names] loop of
    [format_case_style]. *)
Fixpoint apply_case_styles (case_style_names : list string) (s : string) : string :=
  match case_style_names with
  | [] => s
  | case_style_name :: rest =>
      let case_style := from_name case_style_name in
      let converter := converter case_style in
      apply_case_styles rest (converter s)
  end.

(** [CaseStyle.from_name] on an object that need not be a [str]:
    [mapping.get] finds no key equal to an object that is not a [str], and
    raises [TypeError] on one that cannot be hashed. *)
Definition from_name_item (item : TupleItem) : result CaseStyle :=
  match item with
  | ItemStr name => Ok (from_name name)
  | ItemObject _ true => Ok KEEP
  | ItemObject _ false => Raise TypeError
  end.

(** The same loop over a tuple with items of any type. *)
Fixpoint apply_case_style_items (items : list TupleItem) (s : string) : result string :=
  match items with
  | [] => Ok s
  | item :: rest =>
      case_style <- from_name_item item ;;
      let converter := converter case_style in
      apply_case_style_items rest (converter s)
  end.

(** [Formatter.format_case_style]. *)
Definition format_case_style (self : Formatter) (s : string) (class_ : Class)
  : result string :=
  let mapping := case_style_mapping self in
  let v := dict_get Class_eqb mapping class_ (EntryStr "keep") in
  match v with
  | EntryStr case_style_name =>
      let case_style := from_name case_style_name in
      let converter := converter case_style in
      Ok (converter s)
  | EntryTuple case_style_names => Ok (apply_case_styles case_style_names s)
  | EntryTupleAny items => apply_case_style_items items s
  | EntryCallable converter => Ok (converter s)
  | EntryOther _ => Raise InternalError
  end.

(** [Formatter.format_definition_name_inner_proto]; [class_ or d.__class__]. *)
Definition format_definition_name_inner_proto
           (self : Formatter) (d : Defn) (class_ : option Class) : result string :=
  let class_ := match class_ with Some c => c | None => class_of d end in
  let name := _format_definition_name_inner_proto self d in
  format_case_style self name class_.

(** [Formatter.format_definition_name]. *)
Definition format_definition_name
           (self : Formatter) (d : Defn) (class_ : option Class) : result string :=
  definition_name <- format_definition_name_inner_proto self d class_ ;;
  let protos := filter (fun scope => isinstance scope [CProto]) (scope_stack d) in
  if (List.length protos <=? 1)%nat then Ok definition_name
  else if negb (support_import_as_member self) then Ok definition_name
  else
    match last_item protos with
    | Some proto =>
        let items := [_get_definition_name proto; definition_name] in
        Ok (join (delimer_cross_proto self) items)
    | None => Ok definition_name
    end.

Definition format_enum_name (self : Formatter) (t : Defn) : result string :=
  format_definition_name self t (Some CEnum).

Definition format_message_name (self : Formatter) (t : Defn) : result string :=
  format_definition_name self t None.

Definition format_alias_name (self : Formatter) (t : Defn) : result string :=
  format_definition_name self t None.

Definition format_message_field_name (self : Formatter) (f : Defn) : result string :=
  format_case_style self (name f) CMessageField.

Definition format_enum_type (self : Formatter) (t : Defn) : result string :=
  match format_enum_type_override self with
  | Some f => f t
  | None => format_definition_name self t None
  end.

Definition format_message_type (self : Formatter) (t : Defn) : result string :=
  match format_message_type_override self with
  | Some f => f t
  | None => format_message_name self t
  end.

Definition format_alias_type (self : Formatter) (t : Defn) : result string :=
  match format_alias_type_override self with
  | Some f => f t
  | None => format_alias_name self t
  end.

(** [Formatter.format_type]. *)
Definition format_type (self : Formatter) (t : Ty) (name : option string)
  : result string :=
  match t with
  | TBool => Ok (format_bool_type self)
  | TByte => Ok (format_byte_type self)
  | TUint _ => Ok (format_uint_type self t)
  | TInt _ => Ok (format_int_type self t)
  | TArray _ _ => Ok (format_array_type self t name)
  | TEnum d => format_enum_type self d
  | TMessage d => format_message_type self d
  | TAlias d => format_alias_type self d
  | TOther => Raise InternalError
  end.

(** [Formatter.format_constant_type]. *)
Definition format_constant_type (self : Formatter) (c : Defn) : result string :=
  if isinstance c [CBooleanConstant] then format_bool_value_type self
  else if isinstance c [CStringConstant] then format_string_value_type self
  else if isinstance c [CIntegerConstant] then format_int_value_type self
  else Raise InternalError.

End Utils.

End FormatterPy.

(* ===================================================================== *)
(** * [bitproto/renderer.py]                                              *)
(* ===================================================================== *)

Module RendererPy.
Import Ast.

(** ** The formatter of [renderer.py] *)

Record Formatter : Type :=
  Build_Formatter {
      ident_character : string;
      support_import : bool;
      delimer_cross_proto : string;
      delimer_inner_proto : string;
      format_comment : string -> string;
      format_bool_literal : bool -> string;
      format_str_literal : string -> string;
      format_int_literal : Z -> string;
      format_bool_type : string;
      format_byte_type : string;
      format_uint_type : Ty -> string;
      format_int_type : Ty -> string;
      format_array_type : Ty -> option string -> string;
      format_import_statement : Defn -> option string -> string;
      scopes_with_namespace : list Class;
      format_enum_type_override : option (Defn -> string);
      format_message_type_override : option (Defn -> string);
      format_alias_type_override : option (Defn -> string)
    }.

Definition default_scopes_with_namespace : list Class := [CMessage; CProto].

(** [Formatter.format_literal]; [Ok None] when control falls off the end. *)
Definition format_literal (self : Formatter) (value : Value) : result (option string) :=
  if is_True_or_False value then
    Ok (Some (format_bool_literal self (as_bool value)))
  else if isinstance_str value then
    Ok (Some (format_str_literal self (as_str value)))
  else if isinstance_int value then
    Ok (Some (format_int_literal self (as_int value)))
  else Ok None.

(** [Formatter.nbits_from_integer_type], the default implementation. *)
Definition nbits_from_integer_type (t : Integer) : Z :=
  let nbytes := nbytes t in
  if (nbytes =? 1)%Z then 8%Z
  else if (nbytes =? 2)%Z then 16%Z
  else if existsb (Z.eqb nbytes) [3; 4]%Z then 32%Z
  else if existsb (Z.eqb nbytes) [5; 6; 7; 8]%Z then 64%Z
  else (nbytes * 8)%Z.

(** The recursive call of [format_definition_name] is on a member of the
    definition's own [scope_stack], which is strictly less deep. *)
Lemma last_item_In {A : Type} (l : list A) (x : A) :
  last_item l = Some x -> In x l.
Proof.
  induction l as [|a [|b l'] IH]; simpl; intros H; try discriminate.
  - inversion H; auto.
  - right. apply IH. exact H.
Qed.

Lemma depth_scope_stack (d s : Defn) :
  In s (scope_stack d) -> (depth s < depth d)%nat.
Proof.
  destruct d as [u c n stack ms]. simpl.
  induction stack as [|a l IH]; simpl; intros H; [contradiction|].
  destruct H as [->|H]; [lia|]. specialize (IH H). lia.
Qed.

Lemma last_item_filter_depth (p : Defn -> bool) (d s : Defn) :
  last_item (filter p (scope_stack d)) = Some s -> (depth s < depth d)%nat.
Proof.
  intros H. apply depth_scope_stack.
  apply last_item_In in H. apply filter_In in H. tauto.
Qed.

(** [Formatter.format_definition_name].  The list comprehension tests
    [isinstance(d, classes_)], the definition itself, as the source does.
    [namespaces[-1]] is taken together with the emptiness test so that the
    recursive call is seen to be on a member of [scope_stack]; an empty
    [namespaces] has length [<= 1] and returns [definition_name]. *)
Equations? format_definition_name (self : Formatter) (d : Defn) : string
  by wf (depth d) lt :=
  format_definition_name self d with inspect (last_item (scope_stack d)) := {
    | exist _ None _ => name d
    | exist _ (Some scope) _
        with inspect (last_item
                        (filter (fun scope => isinstance d (scopes_with_namespace self))
                                (scope_stack d))) := {
        | exist _ None _ => str_or (get_name_by_member scope d) (name d)
        | exist _ (Some namespace) _ =>
            let definition_name := str_or (get_name_by_member scope d) (name d) in
            let classes_ := scopes_with_namespace self in
            let namespaces :=
              filter (fun scope => isinstance d classes_) (scope_stack d) in
            if (List.length namespaces <=? 1)%nat then definition_name
            else if isinstance namespace [CProto] then
              if negb (support_import self) then definition_name
              else
                let items := [format_definition_name self namespace; definition_name] in
                join (delimer_cross_proto self) items
            else
              let items := [format_definition_name self namespace; definition_name] in
              join (delimer_inner_proto self) items } }.
Proof.
  all: eapply last_item_filter_depth; eassumption.
Qed.

Definition format_enum_name (self : Formatter) (t : Defn) : string :=
  format_definition_name self t.

Definition format_message_name (self : Formatter) (t : Defn) : string :=
  format_definition_name self t.

Definition format_alias_name (self : Formatter) (t : Defn) : string :=
  format_definition_name self t.

Definition format_enum_type (self : Formatter) (t : Defn) : string :=
  match format_enum_type_override self with
  | Some f => f t
  | None => format_definition_name self t
  end.

Definition format_message_type (self : Formatter) (t : Defn) : string :=
  match format_message_type_override self with
  | Some f => f t
  | None => format_message_name self t
  end.

Definition format_alias_type (self : Formatter) (t : Defn) : string :=
  match format_alias_type_override self with
  | Some f => f t
  | None => format_alias_name self t
  end.

(** [Formatter.format_type]; the last line returns a fallback string. *)
Definition format_type (self : Formatter) (t : Ty) : result string :=
  match t with
  | TBool => Ok (format_bool_type self)
  | TByte => Ok (format_byte_type self)
  | TUint _ => Ok (format_uint_type self t)
  | TInt _ => Ok (format_int_type self t)
  | TArray _ _ => Ok (format_array_type self t None)
  | TEnum d => Ok (format_enum_type self d)
  | TMessage d => Ok (format_message_type self d)
  | TAlias d => Ok (format_alias_type self d)
  | TOther => Ok "_unknown_type"
  end.

(** ** Blocks *)

(** The instance attributes of a [Block]. *)
Record Block : Type :=
  Build_Block {
      strings : list string;
      _formatter : option Formatter;
      ident : Z
    }.

(** [Block.__init__]. *)
Definition Block_init (formatter : option Formatter) (ident : Z) : Block :=
  {| strings := []; _formatter := formatter; ident := ident |}.

(** The [formatter] property: the [assert] fails when none is attached. *)
Definition formatter_of (self : Block) : result Formatter :=
  match _formatter self with
  | Some f => Ok f
  | None => Raise AssertionError
  end.

Definition set_formatter (self : Block) (formatter : Formatter) : Block :=
  {| strings := strings self; _formatter := Some formatter; ident := ident self |}.

(** [Block.__str__]. *)
Definition Block_str (self : Block) : string := join LF (strings self).

(** [Block.push_string]: [self.strings[-1]] raises on an empty buffer. *)
Definition push_string (self : Block) (s : string) (separator : string) : result Block :=
  match rev (strings self) with
  | [] => Raise IndexError
  | last :: before =>
      Ok {| strings := rev before ++ [join separator [last; s]];
            _formatter := _formatter self;
            ident := ident self |}
  end.

(** [Block.push]. *)
Definition push (self : Block) (line : string) (ident_arg : option Z) : result Block :=
  let ident_ := match ident_arg with None => ident self | Some i => i end in
  line' <- (if (ident_ >? 0)%Z then
              f <- formatter_of self ;;
              Ok (repeat_string (Z.to_nat ident_) (ident_character f) ++ line)%string
            else Ok line) ;;
  Ok {| strings := strings self ++ [line'];
        _formatter := _formatter self;
        ident := ident self |}.

Definition push_empty_line (self : Block) : result Block := push self "" None.

Definition clear (self : Block) : Block :=
  {| strings := []; _formatter := _formatter self; ident := ident self |}.

(** [Block.collect]: the returned text and the block afterwards. *)
Definition collect (self : Block) : string * Block :=
  let s := Block_str self in
  let self := clear self in
  (s, self).

(** A method that mutates the block it is called on. *)
Definition Method : Type := Block -> result Block.

(** What a subclass of [Block] supplies: [render], and [defer] when it
    overrides it. *)
Record BlockClass : Type :=
  Build_BlockClass {
      render_impl : Method;
      defer_override : option Method
    }.

(** A block object: its class and its attributes. *)
Record BlockObject : Type :=
  Build_BlockObject {
      block_class : BlockClass;
      block : Block
    }.

(** [block.render()]. *)
Definition Block_render (b : BlockObject) : result Block :=
  render_impl (block_class b) (block b).

(** [block.defer()]: [Block.defer] itself raises [NotImplementedError]. *)
Definition Block_defer (b : BlockObject) : result Block :=
  match defer_override (block_class b) with
  | Some defer => defer (block b)
  | None => Raise NotImplementedError
  end.

Definition with_block (b : BlockObject) (self : Block) : BlockObject :=
  {| block_class := block_class b; block := self |}.

(** [MessageEncoderBlock] of [renderer/impls/c/renderer_c.py]: its [render]
    is [pass], and it does not override [defer]. *)
Definition MessageEncoderBlock : BlockClass :=
  {| render_impl := fun self => Ok self; defer_override := None |}.

(** ** Renderers *)

(** Modelled from the spec: a [Proto] is a definition that may be backed by
    a file ([filepath]). *)
Record Proto : Type :=
  Build_Proto {
      definition : Defn;
      filepath : option string
    }.

(** Truthiness of an [Optional[str]]. *)
Definition truthy (s : option string) : option string :=
  match s with
  | Some v => if String.eqb v "" then None else Some v
  | None => None
  end.

(** The instance attributes [Renderer.__init__] sets. *)
Record Renderer : Type :=
  Build_Renderer {
      proto : Proto;
      outdir : string;
      out_filename : string;
      out_filepath : string
    }.

(** What a subclass of [Renderer] supplies. *)
Record RendererClass : Type :=
  Build_RendererClass {
      class_name : string;
      blocks : Renderer -> list BlockObject;
      file_extension : string;
      formatter : Formatter
    }.

(** The observable effects of rendering. *)
Inductive Event : Type :=
| Instantiate (renderer_class_name : string)
| WriteFile (path : string) (content : string).

(** The world a render runs in: which paths can be opened for writing, and
    the effects so far, oldest first. *)
Record World : Type :=
  Build_World {
      writable : string -> bool;
      events : list Event
    }.

Definition emit (w : World) (e : Event) : World :=
  {| writable := writable w; events := events w ++ [e] |}.

Section Rendering.

(** The functions of the [os] module the renderer calls. *)
Variable os_path_join : string -> string -> string.
Variable os_path_basename : string -> string.
Variable os_path_splitext : string -> string * string.
Variable os_path_dirname : string -> string.
Variable os_path_abspath : string -> string.
Variable os_getcwd : string.

(** The renderer classes the registry imports from modules that are not
    part of the sources. *)
Variables RendererC RendererCHeader RendererGo RendererPy_ : RendererClass.

(** [get_renderer_registry]. *)
Definition get_renderer_registry : list (string * list RendererClass) :=
  [("c", [RendererC; RendererCHeader]);
   ("go", [RendererGo]);
   ("py", [RendererPy_])].

(** [get_renderer_cls]. *)
Definition get_renderer_cls (lang : string) : option (list RendererClass) :=
  let registry := get_renderer_registry in
  dict_get String.eqb
           (map (fun kv => (fst kv, Some (snd kv))) registry) lang None.

(** [Renderer.get_outdir_default]. *)
Definition get_outdir_default (proto : Proto) : string :=
  match truthy (filepath proto) with
  | Some path => os_path_dirname (os_path_abspath path)
  | None => os_getcwd
  end.

(** [Renderer.format_out_filename]. *)
Definition format_out_filename (cls : RendererClass) (proto : Proto) : string :=
  let out_base_name :=
    match truthy (filepath proto) with
    | Some path =>
        let proto_base_name := os_path_basename path in
        fst (os_path_splitext proto_base_name)
    | None => name (definition proto)
    end in
  (out_base_name ++ "_bp" ++ file_extension cls)%string.

(** [Renderer.__init__]. *)
Definition Renderer_init (cls : RendererClass) (proto : Proto) (outdir : option string)
  : Renderer :=
  let outdir :=
    match truthy outdir with
    | Some o => o
    | None => get_outdir_default proto
    end in
  let out_filename := format_out_filename cls proto in
  {| proto := proto;
     outdir := outdir;
     out_filename := out_filename;
     out_filepath := os_path_join outdir out_filename |}.

(** The first loop of [render_string]: attach the formatter. *)
Definition set_formatters (formatter : Formatter) (blocks : list BlockObject)
  : list BlockObject :=
  map (fun b => with_block b (set_formatter (block b) formatter)) blocks.

(** The second loop: [block.render(); strings.append(block.collect())].  The
    blocks are returned as the loop leaves them. *)
Fixpoint render_loop (blocks : list BlockObject) (strings : list string)
  : result (list string * list BlockObject) :=
  match blocks with
  | [] => Ok (strings, [])
  | b :: rest =>
      self <- Block_render b ;;
      let (s, self') := collect self in
      r <- render_loop rest (strings ++ [s]) ;;
      Ok (fst r, with_block b self' :: snd r)
  end.

(** The third loop, over [blocks[::-1]]: [NotImplementedError] is caught and
    passed over, any other exception propagates. *)
Fixpoint defer_loop (reversed_blocks : list BlockObject) (strings : list string)
  : result (list string) :=
  match reversed_blocks with
  | [] => Ok strings
  | b :: rest =>
      match Block_defer b with
      | Ok self =>
          let (s, _) := collect self in
          defer_loop rest (strings ++ [s])
      | Raise NotImplementedError => defer_loop rest strings
      | Raise e => Raise e
      end
  end.

(** [Renderer.render_string]. *)
Definition render_string (cls : RendererClass) (self : Renderer) : result string :=
  let blocks := blocks cls self in
  let strings := [] in
  let formatter := formatter cls in
  let blocks := set_formatters formatter blocks in
  r <- render_loop blocks strings ;;
  let (strings, blocks) := r in
  let reversed_blocks := rev blocks in
  strings <- defer_loop reversed_blocks strings ;;
  Ok (join (LF ++ LF)%string strings).

(** [Renderer.render]: the file is opened and written only once the whole
    content is there. *)
Definition Renderer_render (cls : RendererClass) (self : Renderer) (w : World)
  : result string * World :=
  match render_string cls self with
  | Raise e => (Raise e, w)
  | Ok content =>
      if writable w (out_filepath self) then
        (Ok (out_filepath self), emit w (WriteFile (out_filepath self) content))
      else (Raise OSError, w)
  end.

(** The [for renderer_cls in clss] loop of [render]. *)
Fixpoint render_each (clss : list RendererClass) (proto : Proto)
         (outdir : option string) (outs : list string) (w : World)
  : result (list string) * World :=
  match clss with
  | [] => (Ok outs, w)
  | renderer_cls :: rest =>
      let renderer := Renderer_init renderer_cls proto outdir in
      let w := emit w (Instantiate (class_name renderer_cls)) in
      match Renderer_render renderer_cls renderer w with
      | (Ok out, w') => render_each rest proto outdir (outs ++ [out]) w'
      | (Raise e, w') => (Raise e, w')
      end
  end.

(** The module-level [render]. *)
Definition render (proto : Proto) (lang : string) (outdir : option string) (w : World)
  : result (list string) * World :=
  match get_renderer_cls lang with
  | None => (Raise UnsupportedLanguageToRender, w)
  | Some clss => render_each clss proto outdir [] w
  end.

End Rendering.

End RendererPy.

(* ===================================================================== *)
(** * Concrete formatters, definition trees and renderers                 *)
(* ===================================================================== *)

Module Examples.
Import Ast.

(** A formatter in the style of the C backend: keep-case for everything but
    constants (upper) and enum fields (snake, then upper), as in the
    docstring of [case_style_mapping]. *)
Definition c_like_formatter (mapping : FormatterPy.CaseStyleMapping)
  : FormatterPy.Formatter :=
  {| FormatterPy.case_style_mapping := mapping;
     FormatterPy.indent_character := " ";
     FormatterPy.support_import_as_member := false;
     FormatterPy.format_import_statement := fun t _ => ("#include " ++ name t)%string;
     FormatterPy.format_comment := fun content => ("// " ++ content)%string;
     FormatterPy.format_bool_value := fun b => if b then "true" else "false";
     FormatterPy.format_str_value := fun s => s;
     FormatterPy.format_int_value := fun z => if (z =? 1)%Z then "1" else "0";
     FormatterPy.format_bool_type := "bool";
     FormatterPy.format_byte_type := "unsigned char";
     FormatterPy.format_uint_type := fun _ => "uint32_t";
     FormatterPy.format_int_type := fun _ => "int32_t";
     FormatterPy.format_array_type := fun _ _ => "array";
     FormatterPy.format_int_value_type := Raise NotImplementedError;
     FormatterPy.format_string_value_type := Raise NotImplementedError;
     FormatterPy.format_bool_value_type := Raise NotImplementedError;
     FormatterPy.format_enum_type_override := None;
     FormatterPy.format_message_type_override := None;
     FormatterPy.format_alias_type_override := None;
     FormatterPy.delimer_cross_proto := FormatterPy.default_delimer_cross_proto;
     FormatterPy.delimer_inner_proto := FormatterPy.default_delimer_inner_proto;
     FormatterPy.scopes_with_namespace := FormatterPy.default_scopes_with_namespace |}.

Definition docstring_mapping : FormatterPy.CaseStyleMapping :=
  [(CConstant, FormatterPy.EntryStr "upper");
   (CEnumField, FormatterPy.EntryTuple ["snake"; "upper"])].

(** A table with a misspelled style name and an entry of a wrong type. *)
Definition faulty_mapping : FormatterPy.CaseStyleMapping :=
  [(CConstant, FormatterPy.EntryStr "uper");
   (CEnum, FormatterPy.EntryOther "42")].


(** A table with a custom converter for constants. *)
Definition suffix_mapping : FormatterPy.CaseStyleMapping :=
  [(CConstant, FormatterPy.EntryCallable (fun s => (s ++ "_t")%string))].

(** The same formatter for [renderer.py]. *)
Definition old_formatter : RendererPy.Formatter :=
  {| RendererPy.ident_character := " ";
     RendererPy.support_import := false;
     RendererPy.delimer_cross_proto := ".";
     RendererPy.delimer_inner_proto := "_";
     RendererPy.format_comment := fun content => ("// " ++ content)%string;
     RendererPy.format_bool_literal := fun b => if b then "true" else "false";
     RendererPy.format_str_literal := fun s => s;
     RendererPy.format_int_literal := fun z => if (z =? 1)%Z then "1" else "0";
     RendererPy.format_bool_type := "bool";
     RendererPy.format_byte_type := "unsigned char";
     RendererPy.format_uint_type := fun _ => "uint32_t";
     RendererPy.format_int_type := fun _ => "int32_t";
     RendererPy.format_array_type := fun _ _ => "array";
     RendererPy.format_import_statement := fun t _ => ("#include " ++ name t)%string;
     RendererPy.scopes_with_namespace := RendererPy.default_scopes_with_namespace;
     RendererPy.format_enum_type_override := None;
     RendererPy.format_message_type_override := None;
     RendererPy.format_alias_type_override := None |}.

(** A proto [example] holding a message [Outer], which holds a message
    [Inner], which holds a definition [field] of the given class. *)
Definition example_proto : Defn :=
  {| uid := 0; class_of := CProto; name := "example";
     scope_stack := []; members := [("Outer", 1%nat)] |}.

Definition Outer : Defn :=
  {| uid := 1; class_of := CMessage; name := "Outer";
     scope_stack := [example_proto]; members := [("Inner", 2%nat)] |}.

Definition Inner : Defn :=
  {| uid := 2; class_of := CMessage; name := "Inner";
     scope_stack := [example_proto; Outer]; members := [("field", 3%nat)] |}.

Definition field (c : Class) : Defn :=
  {| uid := 3; class_of := c; name := "field";
     scope_stack := [example_proto; Outer; Inner]; members := [] |}.

(** Stand-ins for the three converters of [bitproto.utils] that only record
    which converter ran, and in what order. *)
Definition tag (t : string) (s : string) : string := (t ++ "(" ++ s ++ ")")%string.
Definition snake_tag : string -> string := tag "snake".
Definition upper_tag : string -> string := tag "upper".
Definition pascal_tag : string -> string := tag "pascal".

(** A constant declared outside every scope. *)
Definition lone_constant : Defn :=
  {| uid := 7; class_of := CConstant; name := "foo";
     scope_stack := []; members := [] |}.

(** A block whose [render] pushes one line, and one that also overrides
    [defer] to push a closing line. *)
Definition Line (text : string) : RendererPy.BlockClass :=
  {| RendererPy.render_impl := fun self => RendererPy.push self text None;
     RendererPy.defer_override := None |}.

Definition Bracket (opening closing : string) : RendererPy.BlockClass :=
  {| RendererPy.render_impl := fun self => RendererPy.push self opening None;
     RendererPy.defer_override :=
       Some (fun self => RendererPy.push self closing None) |}.

Definition new_block (c : RendererPy.BlockClass) : RendererPy.BlockObject :=
  {| RendererPy.block_class := c; RendererPy.block := RendererPy.Block_init None 0 |}.

(** A renderer class with a fixed list of blocks. *)
Definition fixed_renderer (class_name extension : string)
           (classes : list RendererPy.BlockClass) : RendererPy.RendererClass :=
  {| RendererPy.class_name := class_name;
     RendererPy.blocks := fun _ => map new_block classes;
     RendererPy.file_extension := extension;
     RendererPy.formatter := old_formatter |}.

(** Two lines around a [MessageEncoderBlock], whose [render] pushes nothing. *)
Definition renderer_with_empty_block : RendererPy.RendererClass :=
  fixed_renderer "RendererC" ".c"
                 [Line "a"; RendererPy.MessageEncoderBlock; Line "b"].

(** Three blocks, the first and the last with a [defer]. *)
Definition renderer_with_defers : RendererPy.RendererClass :=
  fixed_renderer "RendererCHeader" ".h"
                 [Bracket "a" "end a"; Line "b"; Bracket "c" "end c"].

Definition renderer_go : RendererPy.RendererClass :=
  fixed_renderer "RendererGo" ".go" [Line "package example"].

Definition renderer_py : RendererPy.RendererClass :=
  fixed_renderer "RendererPy" ".py" [Line "import bitproto"].

(** A proto that was not parsed from a file. *)
Definition unit_proto : RendererPy.Proto :=
  {| RendererPy.definition := example_proto; RendererPy.filepath := None |}.

Definition a_renderer : RendererPy.Renderer :=
  {| RendererPy.proto := unit_proto;
     RendererPy.outdir := "out";
     RendererPy.out_filename := "example_bp.c";
     RendererPy.out_filepath := "out/example_bp.c" |}.

(** Stand-ins for the functions of [os.path] on slash-separated paths
    without directories or extensions in the file name. *)
Definition join_path (a b : string) : string := (a ++ "/" ++ b)%string.
Definition no_extension (s : string) : string * string := (s, "").
Definition same_path (s : string) : string := s.

(** A world in which every path can be written and nothing has happened. *)
Definition fresh_world : RendererPy.World :=
  {| RendererPy.writable := fun _ => true; RendererPy.events := [] |}.

End Examples.

(* ===================================================================== *)
(** * Vocabulary of the statements                                        *)
(* ===================================================================== *)

(** The entry [format_case_style] resolves for a class: the table's entry,
    or the style name ["keep"] when the class is absent. *)
Definition table_entry (self : FormatterPy.Formatter) (class_ : Ast.Class)
  : FormatterPy.CaseStyleEntry :=
  dict_get Ast.Class_eqb (FormatterPy.case_style_mapping self) class_
           (FormatterPy.EntryStr "keep").





(** The class is not a key of the table. *)
Definition absent (class_ : Ast.Class) (mapping : FormatterPy.CaseStyleMapping) : Prop :=
  forall k v, In (k, v) mapping -> Ast.Class_eqb k class_ = false.

(** The results of a function over a list, left to right; the first
    exception wins. *)
Fixpoint mapM {A B : Type} (f : A -> result B) (l : list A) : result (list B) :=
  match l with
  | [] => Ok []
  | a :: rest =>
      b <- f a ;;
      bs <- mapM f rest ;;
      Ok (b :: bs)
  end.

(** A block with the renderer's formatter attached. *)
Definition attach (formatter : RendererPy.Formatter) (b : RendererPy.BlockObject)
  : RendererPy.BlockObject :=
  RendererPy.with_block b (RendererPy.set_formatter (RendererPy.block b) formatter).

(** The render-phase text of a block: what [collect] returns right after
    [render] ran on the block with the formatter attached. *)
Definition render_phase_text (formatter : RendererPy.Formatter)
           (b : RendererPy.BlockObject) : result string :=
  self <- RendererPy.Block_render (attach formatter b) ;;
  Ok (fst (RendererPy.collect self)).

(** The block as its render phase leaves it. *)
Definition after_render (formatter : RendererPy.Formatter)
           (b : RendererPy.BlockObject) : RendererPy.BlockObject :=
  match RendererPy.Block_render (attach formatter b) with
  | Ok self => RendererPy.with_block b (snd (RendererPy.collect self))
  | Raise _ => attach formatter b
  end.

(** The pieces [defer] contributes on a block: its collected text, or no
    piece at all when it raises [NotImplementedError]. *)
Definition defer_pieces (b : RendererPy.BlockObject) : result (list string) :=
  match RendererPy.Block_defer b with
  | Ok self => Ok [fst (RendererPy.collect self)]
  | Raise NotImplementedError => Ok []
  | Raise e => Raise e
  end.

(** The defer-phase text of a block of the renderer's list. *)
Definition defer_phase_text (formatter : RendererPy.Formatter)
           (b : RendererPy.BlockObject) : result (list string) :=
  defer_pieces (after_render formatter b).

(** The join of the claim, following the spec's words: one blank line
    between adjacent non-empty pieces, empty pieces taking no separator. *)
Definition join_non_empty (pieces : list string) : string :=
  join (LF ++ LF)%string (filter (fun s => negb (String.eqb s "")) pieces).

Definition render_string_as_claimed (cls : RendererPy.RendererClass)
           (self : RendererPy.Renderer) : result string :=
  let blocks := RendererPy.blocks cls self in
  let formatter := RendererPy.formatter cls in
  rs <- mapM (render_phase_text formatter) blocks ;;
  ds <- mapM (defer_phase_text formatter) (rev blocks) ;;
  Ok (join_non_empty (rs ++ List.concat ds)).

(** The content a renderer writes, when [render_string] returns. *)
Definition content_of (cls : RendererPy.RendererClass) (self : RendererPy.Renderer)
  : string :=
  match RendererPy.render_string cls self with
  | Ok content => content
  | Raise _ => ""
  end.

Section RenderEffects.

Variable os_path_join : string -> string -> string.
Variable os_path_basename : string -> string.
Variable os_path_splitext : string -> string * string.
Variable os_path_dirname : string -> string.
Variable os_path_abspath : string -> string.
Variable os_getcwd : string.

(** The renderer [render] constructs from a class. *)
Definition renderer_of (proto : RendererPy.Proto) (outdir : option string)
           (cls : RendererPy.RendererClass) : RendererPy.Renderer :=
  RendererPy.Renderer_init os_path_join os_path_basename os_path_splitext
                           os_path_dirname os_path_abspath os_getcwd
                           cls proto outdir.

(** What instantiating and rendering one class adds to the log. *)
Definition effects_of (proto : RendererPy.Proto) (outdir : option string)
           (cls : RendererPy.RendererClass) : list RendererPy.Event :=
  let renderer := renderer_of proto outdir cls in
  [RendererPy.Instantiate (RendererPy.class_name cls);
   RendererPy.WriteFile (RendererPy.out_filepath renderer) (content_of cls renderer)].

(** A renderer class renders the proto: its text is produced and its output
    path can be written. *)
Definition renders (proto : RendererPy.Proto) (outdir : option string)
           (w : RendererPy.World) (cls : RendererPy.RendererClass) : Prop :=
  let renderer := renderer_of proto outdir cls in
  (exists content, RendererPy.render_string cls renderer = Ok content) /\
  RendererPy.writable w (RendererPy.out_filepath renderer) = true.

End RenderEffects.

(* ===================================================================== *)
(** * [bitproto/renderer.py]: blocks bound to a definition                *)
(* ===================================================================== *)

(** [str(n)] for an [int]. *)
Definition py_str_int (z : Z) : string := NilZero.string_of_int (Z.to_int z).

Module BlockForDefinitionPy.
Import Ast.
Import RendererPy.

(** Modelled from the spec: [Node] is not part of the sources; a node has a
    source line number and a sequence of comments, each with a [content()].
    The definition of a [BlockForDefinition] is a node. *)
Record Node : Type :=
  Build_Node {
      node_definition : Defn;
      lineno : Z;
      comment_block : list string
    }.

(** [Formatter.format_token_location]. *)
Definition format_token_location (self : Formatter) (node : Node) : string :=
  ("@@L" ++ py_str_int (lineno node))%string.

(** [Formatter.format_left_shift] and [Formatter.format_right_shift]. *)
Definition format_left_shift (self : Formatter) (n : Z) : string :=
  ("<< " ++ py_str_int n)%string.

Definition format_right_shift (self : Formatter) (n : Z) : string :=
  (">> " ++ py_str_int n)%string.

(** [Block.render], the method a subclass has to override. *)
Definition Block_render_abstract : Method := fun _ => Raise NotImplementedError.

(** The attributes of a [BlockForDefinition]: those of a [Block] and the
    two its [__init__] adds. *)
Record BlockForDefinition : Type :=
  Build_BlockForDefinition {
      base : Block;
      definition : Node;
      definition_name : string
    }.

(** [BlockForDefinition.__init__]; [name or definition.name]. *)
Definition BlockForDefinition_init (definition : Node) (name_ : option string)
           (formatter : option Formatter) (ident : Z) : BlockForDefinition :=
  {| base := Block_init formatter ident;
     definition := definition;
     definition_name := str_or name_ (name (node_definition definition)) |}.

Definition with_base (self : BlockForDefinition) (b : Block) : BlockForDefinition :=
  {| base := b;
     definition := definition self;
     definition_name := definition_name self |}.

(** The [for comment in self.definition.comment_block] loop of
    [render_doc]; [self.formatter] is read at every turn. *)
Fixpoint render_doc_loop (comments : list string) (b : Block) : result Block :=
  match comments with
  | [] => Ok b
  | comment :: rest =>
      f <- formatter_of b ;;
      b' <- push b (format_comment f comment) None ;;
      render_doc_loop rest b'
  end.

(** [BlockForDefinition.render_doc]. *)
Definition render_doc (self : BlockForDefinition) : result BlockForDefinition :=
  b <- render_doc_loop (comment_block (definition self)) (base self) ;;
  Ok (with_base self b).

(** [BlockForDefinition.push_location_doc]. *)
Definition push_location_doc (self : BlockForDefinition) : result BlockForDefinition :=
  f <- formatter_of (base self) ;;
  let location_string := format_token_location f (definition self) in
  f' <- formatter_of (base self) ;;
  b <- push_string (base self) (format_comment f' location_string) " " ;;
  Ok (with_base self b).

End BlockForDefinitionPy.

(* ===================================================================== *)
(** * Vocabulary of the further statements                                *)
(* ===================================================================== *)

(** The indentation [push] puts in front of a line. *)
Definition indentation (formatter : RendererPy.Formatter) (ident : Z) : string :=
  repeat_string (Z.to_nat ident) (RendererPy.ident_character formatter).

(** The block with another buffer. *)
Definition with_strings (self : RendererPy.Block) (lines : list string)
  : RendererPy.Block :=
  {| RendererPy.strings := lines;
     RendererPy._formatter := RendererPy._formatter self;
     RendererPy.ident := RendererPy.ident self |}.

(** The [ident] a call of [push] works with: the argument, or the block's. *)
Definition effective_ident (self : RendererPy.Block) (ident_arg : option Z) : Z :=
  match ident_arg with
  | None => RendererPy.ident self
  | Some i => i
  end.

(** Pushing several lines, one [push] after the other. *)
Fixpoint push_all (self : RendererPy.Block) (lines : list string)
  : result RendererPy.Block :=
  match lines with
  | [] => Ok self
  | line :: rest =>
      self' <- RendererPy.push self line None ;;
      push_all self' rest
  end.

(** A scope that is an instance of [Proto]. *)
Definition is_proto (scope : Ast.Defn) : bool := Ast.isinstance scope [Ast.CProto].

(** A scope that is an instance of [Message]. *)
Definition is_message (scope : Ast.Defn) : bool := Ast.isinstance scope [Ast.CMessage].

(** Messages nested one in the other inside the proto [p], outermost first:
    the [scope_stack] of each is [p] followed by the messages before it. *)
Definition message_chain (p : Ast.Defn) (ms : list Ast.Defn) : Prop :=
  forall before m after,
    ms = before ++ m :: after ->
    is_message m = true /\ Ast.scope_stack m = p :: before.

(** The kinds of value [format_value] has a branch for. *)
Definition recognized (v : Ast.Value) : bool :=
  Ast.is_True_or_False v || Ast.isinstance_str v || Ast.isinstance_int v.

(** A name the mapping of [from_name] knows. *)
Definition known_style (name : string) : bool :=
  String.eqb name "snake" || String.eqb name "upper" || String.eqb name "pascal".

(** The world after more events. *)
Definition grown (w : RendererPy.World) (es : list RendererPy.Event) : RendererPy.World :=
  {| RendererPy.writable := RendererPy.writable w;
     RendererPy.events := RendererPy.events w ++ es |}.

Section RenderFailures.

Variable os_path_join : string -> string -> string.
Variable os_path_basename : string -> string.
Variable os_path_splitext : string -> string * string.
Variable os_path_dirname : string -> string.
Variable os_path_abspath : string -> string.
Variable os_getcwd : string.

(** A renderer class fails on the proto with the exception [e]: its
    [render_string] raises [e], or its text is produced and its output path
    cannot be opened ([OSError]). *)
Definition fails_with (proto : RendererPy.Proto) (outdir : option string)
           (w : RendererPy.World) (cls : RendererPy.RendererClass) (e : exn) : Prop :=
  let renderer :=
    renderer_of os_path_join os_path_basename os_path_splitext
                os_path_dirname os_path_abspath os_getcwd proto outdir cls in
  RendererPy.render_string cls renderer = Raise e \/
  ((exists content, RendererPy.render_string cls renderer = Ok content) /\
   RendererPy.writable w (RendererPy.out_filepath renderer) = false /\
   e = OSError).

End RenderFailures.

(* ===================================================================== *)
(** * Further concrete inputs                                             *)
(* ===================================================================== *)

Module MoreExamples.
Import Ast.

(** An enum [Color] inside [Outer], and its field [RED]. *)
Definition Color : Defn :=
  {| uid := 8; class_of := CEnum; name := "Color";
     scope_stack := [Examples.example_proto; Examples.Outer];
     members := [("RED", 9%nat)] |}.

Definition RED : Defn :=
  {| uid := 9; class_of := CEnumField; name := "RED";
     scope_stack := [Examples.example_proto; Examples.Outer; Color];
     members := [] |}.

(** A proto [shared] imported into [example] under the name [lib], with a
    message [Header] and, inside it, an enum [Kind]. *)
Definition importing_proto : Defn :=
  {| uid := 0; class_of := CProto; name := "example";
     scope_stack := []; members := [("lib", 20%nat)] |}.

Definition shared : Defn :=
  {| uid := 20; class_of := CProto; name := "shared";
     scope_stack := [importing_proto]; members := [("Header", 21%nat)] |}.

Definition Header : Defn :=
  {| uid := 21; class_of := CMessage; name := "Header";
     scope_stack := [importing_proto; shared]; members := [("Kind", 22%nat)] |}.

Definition Kind : Defn :=
  {| uid := 22; class_of := CEnum; name := "Kind";
     scope_stack := [importing_proto; shared; Header]; members := [] |}.

(** The C-like formatter for a language that imports protos as members. *)
Definition importing_formatter (mapping : FormatterPy.CaseStyleMapping)
  : FormatterPy.Formatter :=
  let f := Examples.c_like_formatter mapping in
  {| FormatterPy.case_style_mapping := mapping;
     FormatterPy.indent_character := FormatterPy.indent_character f;
     FormatterPy.support_import_as_member := true;
     FormatterPy.format_import_statement := FormatterPy.format_import_statement f;
     FormatterPy.format_comment := FormatterPy.format_comment f;
     FormatterPy.format_bool_value := FormatterPy.format_bool_value f;
     FormatterPy.format_str_value := FormatterPy.format_str_value f;
     FormatterPy.format_int_value := FormatterPy.format_int_value f;
     FormatterPy.format_bool_type := FormatterPy.format_bool_type f;
     FormatterPy.format_byte_type := FormatterPy.format_byte_type f;
     FormatterPy.format_uint_type := FormatterPy.format_uint_type f;
     FormatterPy.format_int_type := FormatterPy.format_int_type f;
     FormatterPy.format_array_type := FormatterPy.format_array_type f;
     FormatterPy.format_int_value_type := FormatterPy.format_int_value_type f;
     FormatterPy.format_string_value_type := FormatterPy.format_string_value_type f;
     FormatterPy.format_bool_value_type := FormatterPy.format_bool_value_type f;
     FormatterPy.format_enum_type_override := None;
     FormatterPy.format_message_type_override := None;
     FormatterPy.format_alias_type_override := None;
     FormatterPy.delimer_cross_proto := FormatterPy.default_delimer_cross_proto;
     FormatterPy.delimer_inner_proto := FormatterPy.default_delimer_inner_proto;
     FormatterPy.scopes_with_namespace := FormatterPy.default_scopes_with_namespace |}.

(** An indented block with the formatter of [renderer.py] attached. *)
Definition indented_block (lines : list string) : RendererPy.Block :=
  {| RendererPy.strings := lines;
     RendererPy._formatter := Some Examples.old_formatter;
     RendererPy.ident := 2 |}.

(** The block of the constant [foo], declared at line 12 under two lines of
    comment. *)
Definition documented_block (formatter : option RendererPy.Formatter)
           (lines : list string) : BlockForDefinitionPy.BlockForDefinition :=
  {| BlockForDefinitionPy.base :=
       {| RendererPy.strings := lines;
          RendererPy._formatter := formatter;
          RendererPy.ident := 0 |};
     BlockForDefinitionPy.definition :=
       {| BlockForDefinitionPy.node_definition := Examples.lone_constant;
          BlockForDefinitionPy.lineno := 12;
          BlockForDefinitionPy.comment_block := ["Size limit."; "In bytes."] |};
     BlockForDefinitionPy.definition_name := "foo" |}.

(** A block class that does not override [render], and one whose [defer]
    extends a line that is not there. *)
Definition Unrendered : RendererPy.BlockClass :=
  {| RendererPy.render_impl := BlockForDefinitionPy.Block_render_abstract;
     RendererPy.defer_override := None |}.

Definition BadDefer : RendererPy.BlockClass :=
  {| RendererPy.render_impl := fun self => RendererPy.push self "x" None;
     RendererPy.defer_override :=
       Some (fun self => RendererPy.push_string self "y" " ") |}.

Definition renderer_unrendered : RendererPy.RendererClass :=
  Examples.fixed_renderer "RendererCHeader" ".h" [Examples.Line "a"; Unrendered].

Definition renderer_bad_defer : RendererPy.RendererClass :=
  Examples.fixed_renderer "RendererCHeader" ".h" [Examples.Line "a"; BadDefer].

(** A world in which only the [.c] file can be written. *)
Definition c_only_world : RendererPy.World :=
  {| RendererPy.writable := fun path => String.eqb path "out/example_bp.c";
     RendererPy.events := [] |}.

End MoreExamples.

(* ===================================================================== *)
(** * Verified properties                                                 *)
(* ===================================================================== *)

Import Ast.

(** ** Numeric width selection *)

Section NumericWidth.

Local Open Scope Z_scope.

(** The two files carry the same default implementation. *)
Lemma nbits_from_integer_type_same (t : Integer) :
  RendererPy.nbits_from_integer_type t = FormatterPy.get_nbits_of_integer t.
Proof. reflexivity. Qed.

Lemma get_nbits_of_integer_large (n : Z) :
  8 < n -> FormatterPy.get_nbits_of_integer (Build_Integer n) = n * 8.
Proof.
  intros Hn. unfold FormatterPy.get_nbits_of_integer. simpl.
  repeat match goal with
         | |- context [?a =? ?b] => destruct (Z.eqb_spec a b); [lia|]
         end.
  reflexivity.
Qed.

Lemma get_nbits_of_integer_64 (n : Z) :
  5 <= n <= 8 -> FormatterPy.get_nbits_of_integer (Build_Integer n) = 64.
Proof.
  intros Hn.
  assert (n = 5 \/ n = 6 \/ n = 7 \/ n = 8) as [-> | [-> | [-> | ->]]] by lia;
    reflexivity.
Qed.

(** C9: the default width selection maps 1 byte to 8 bits, 2 bytes to 16 bits,
    3 or 4 bytes to 32 bits, 5 through 8 bytes to 64 bits and every byte
    count above 8 to exactly eight times the byte count; byte counts 1..9
    give 8, 16, 32, 32, 64, 64, 64, 64, 72.  [nbits_from_integer_type] of
    [renderer.py] is the same function. *)
Theorem get_nbits_of_integer_table (t : Integer) :
  (nbytes t = 1 -> FormatterPy.get_nbits_of_integer t = 8) /\
  (nbytes t = 2 -> FormatterPy.get_nbits_of_integer t = 16) /\
  (nbytes t = 3 \/ nbytes t = 4 -> FormatterPy.get_nbits_of_integer t = 32) /\
  (5 <= nbytes t <= 8 -> FormatterPy.get_nbits_of_integer t = 64) /\
  (8 < nbytes t -> FormatterPy.get_nbits_of_integer t = nbytes t * 8) /\
  RendererPy.nbits_from_integer_type t = FormatterPy.get_nbits_of_integer t /\
  map (fun n => FormatterPy.get_nbits_of_integer (Build_Integer n))
      [1; 2; 3; 4; 5; 6; 7; 8; 9]
  = [8; 16; 32; 32; 64; 64; 64; 64; 72].
Proof.
  destruct t as [n]; simpl.
  repeat split.
  - intros ->. reflexivity.
  - intros ->. reflexivity.
  - intros [-> | ->]; reflexivity.
  - apply get_nbits_of_integer_64.
  - apply get_nbits_of_integer_large.
Qed.

(** A 9-byte integer is not rounded up to a machine width. *)
Lemma get_nbits_of_integer_table_witness :
  FormatterPy.get_nbits_of_integer (Build_Integer 9) = 72 /\
  FormatterPy.get_nbits_of_integer (Build_Integer 3) = 32.
Proof.
  destruct (get_nbits_of_integer_table (Build_Integer 9))
    as (_ & _ & _ & _ & H9 & _).
  destruct (get_nbits_of_integer_table (Build_Integer 3))
    as (_ & _ & H3 & _).
  split.
  - apply H9. simpl. lia.
  - apply H3. simpl. left. reflexivity.
Defined.

End NumericWidth.

(** ** Value dispatch *)

(** C5: a boolean value goes to the boolean-literal hook, in [format_value]
    and in [format_literal], although it also satisfies the integer
    predicate; the result is the boolean hook's output and differs from the
    integer hook's output wherever the two hooks differ. *)
Theorem format_value_bool_first (b : bool) :
  isinstance_int (PyBool b) = true /\
  (forall self : FormatterPy.Formatter,
      FormatterPy.format_value self (PyBool b)
      = Ok (Some (FormatterPy.format_bool_value self b))) /\
  (forall self : RendererPy.Formatter,
      RendererPy.format_literal self (PyBool b)
      = Ok (Some (RendererPy.format_bool_literal self b))) /\
  (forall self : FormatterPy.Formatter,
      FormatterPy.format_bool_value self b
      <> FormatterPy.format_int_value self (as_int (PyBool b)) ->
      FormatterPy.format_value self (PyBool b)
      <> Ok (Some (FormatterPy.format_int_value self (as_int (PyBool b))))) /\
  (forall self : RendererPy.Formatter,
      RendererPy.format_bool_literal self b
      <> RendererPy.format_int_literal self (as_int (PyBool b)) ->
      RendererPy.format_literal self (PyBool b)
      <> Ok (Some (RendererPy.format_int_literal self (as_int (PyBool b))))).
Proof.
  repeat split; try reflexivity.
  - intros self Hne Heq. apply Hne.
    exact (f_equal (fun r => match r with Ok (Some s) => s | _ => "" end) Heq).
  - intros self Hne Heq. apply Hne.
    exact (f_equal (fun r => match r with Ok (Some s) => s | _ => "" end) Heq).
Qed.

(** On the C-like formatter [True] is rendered [true], not [1]. *)
Lemma format_value_bool_first_witness :
  FormatterPy.format_value (Examples.c_like_formatter []) (PyBool true)
  = Ok (Some "true") /\
  FormatterPy.format_value (Examples.c_like_formatter []) (PyBool true)
  <> Ok (Some (FormatterPy.format_int_value (Examples.c_like_formatter []) 1)).
Proof.
  destruct (format_value_bool_first true) as (_ & Hbool & _ & Hint & _).
  split.
  - apply Hbool.
  - apply (Hint (Examples.c_like_formatter [])). discriminate.
Defined.

(** An integer that is not a boolean does reach the integer hook. *)
Lemma format_value_int (self : FormatterPy.Formatter) (z : Z) :
  FormatterPy.format_value self (PyInt z)
  = Ok (Some (FormatterPy.format_int_value self z)).
Proof. reflexivity. Qed.

Lemma format_value_str (self : FormatterPy.Formatter) (s : string) :
  FormatterPy.format_value self (PyStr s)
  = Ok (Some (FormatterPy.format_str_value self s)).
Proof. reflexivity. Qed.

(** ** Blocks *)

(** C8: [collect] returns the buffered text and leaves the buffer empty, so
    a second [collect] with no write in between returns the empty string
    (whatever the first one returned) and changes nothing else. *)
Theorem collect_consume_once (self : RendererPy.Block) :
  let first := RendererPy.collect self in
  let second := RendererPy.collect (snd first) in
  fst first = join LF (RendererPy.strings self) /\
  RendererPy.strings (snd first) = [] /\
  fst second = "" /\
  snd second = snd first.
Proof.
  simpl. repeat split.
Qed.

(** ** Case styles *)

Section CaseStyles.

Variables snake_case upper_case pascal_case : string -> string.

Abbreviation converter := (FormatterPy.converter snake_case upper_case pascal_case).
Abbreviation apply_case_styles :=
  (FormatterPy.apply_case_styles snake_case upper_case pascal_case).
Abbreviation format_case_style :=
  (FormatterPy.format_case_style snake_case upper_case pascal_case).

(** Only the three names of the mapping select a converter of their own. *)
Lemma from_name_unrecognized (name : string) :
  name <> "snake" -> name <> "upper" -> name <> "pascal" ->
  FormatterPy.from_name name = FormatterPy.KEEP.
Proof.
  intros Hs Hu Hp. unfold FormatterPy.from_name, dict_get.
  destruct (String.eqb_spec "snake" name) as [E|_]; [congruence|].
  destruct (String.eqb_spec "upper" name) as [E|_]; [congruence|].
  destruct (String.eqb_spec "pascal" name) as [E|_]; [congruence|].
  reflexivity.
Qed.


Lemma apply_case_styles_app (names1 names2 : list string) (s : string) :
  apply_case_styles (names1 ++ names2) s
  = apply_case_styles names2 (apply_case_styles names1 s).
Proof.
  revert s. induction names1 as [|n rest IH]; intros s; simpl.
  - reflexivity.
  - apply IH.
Qed.

Lemma table_entry_absent (self : FormatterPy.Formatter) (class_ : Class) :
  absent class_ (FormatterPy.case_style_mapping self) ->
  table_entry self class_ = FormatterPy.EntryStr "keep".
Proof.
  unfold table_entry, absent.
  induction (FormatterPy.case_style_mapping self) as [|[k v] rest IH]; intros H.
  - reflexivity.
  - simpl. rewrite (H k v (or_introl eq_refl)).
    apply IH. intros k' v' Hin. apply (H k' v'). right. exact Hin.
Qed.

Lemma format_case_style_absent (self : FormatterPy.Formatter) (s : string)
      (class_ : Class) :
  absent class_ (FormatterPy.case_style_mapping self) ->
  format_case_style self s class_ = Ok s.
Proof.
  intros Habs. unfold FormatterPy.format_case_style.
  fold (table_entry self class_).
  rewrite (table_entry_absent self class_ Habs). reflexivity.
Qed.



(** A tuple of [str] behaves the same under either encoding. *)
Lemma apply_case_style_items_str (names : list string) (s : string) :
  FormatterPy.apply_case_style_items
    snake_case upper_case pascal_case (map FormatterPy.ItemStr names) s
  = Ok (apply_case_styles names s).
Proof.
  revert s. induction names as [|n rest IH]; intros s; simpl.
  - reflexivity.
  - apply IH.
Qed.


(** C10: a string entry that is not one of the three style names resolves to
    [KEEP], so [format_case_style] returns the string unchanged and raises
    nothing. *)
Theorem format_case_style_unrecognized_name
        (self : FormatterPy.Formatter) (s : string) (class_ : Class) (name : string) :
  table_entry self class_ = FormatterPy.EntryStr name ->
  name <> "snake" -> name <> "upper" -> name <> "pascal" ->
  FormatterPy.from_name name = FormatterPy.KEEP /\
  format_case_style self s class_ = Ok s.
Proof.
  intros Hentry Hs Hu Hp.
  pose proof (from_name_unrecognized name Hs Hu Hp) as Hkeep.
  split; [exact Hkeep|].
  unfold FormatterPy.format_case_style. fold (table_entry self class_).
  rewrite Hentry, Hkeep. reflexivity.
Qed.

End CaseStyles.



(** The misspelled name ["uper"] leaves a constant's name as it is. *)
Lemma format_case_style_unrecognized_name_witness :
  FormatterPy.from_name "uper" = FormatterPy.KEEP /\
  FormatterPy.format_case_style
    Examples.snake_tag Examples.upper_tag Examples.pascal_tag
    (Examples.c_like_formatter Examples.faulty_mapping) "max_size" CConstant
  = Ok "max_size".
Proof.
  apply (format_case_style_unrecognized_name
           Examples.snake_tag Examples.upper_tag Examples.pascal_tag
           (Examples.c_like_formatter Examples.faulty_mapping)
           "max_size" CConstant "uper").
  - reflexivity.
  - discriminate.
  - discriminate.
  - discriminate.
Defined.

(** ** Name resolution *)

(** [filter] with a predicate that ignores the element keeps all or nothing. *)
Lemma filter_const {A : Type} (b : bool) (l : list A) :
  filter (fun _ => b) l = if b then l else [].
Proof.
  destruct b; induction l as [|a l IH]; simpl; try reflexivity; try assumption.
  rewrite IH. reflexivity.
Qed.

(** In [renderer.py] a definition with an empty [scope_stack] keeps its own
    name. *)
Lemma renderer_py_name_top_level (self : RendererPy.Formatter) (d : Defn) :
  scope_stack d = [] -> RendererPy.format_definition_name self d = name d.
Proof.
  destruct d as [u c n stack ms]; simpl; intros ->.
  simp format_definition_name. reflexivity.
Qed.

(** In [renderer.py] the comprehension tests the definition itself: when the
    definition is not of a namespace class, no ancestor is kept and the name
    is never qualified, however deep the definition is nested. *)
Lemma renderer_py_name_not_qualified (self : RendererPy.Formatter) (d scope : Defn) :
  isinstance d (RendererPy.scopes_with_namespace self) = false ->
  last_item (scope_stack d) = Some scope ->
  RendererPy.format_definition_name self d
  = str_or (get_name_by_member scope d) (name d).
Proof.
  intros Hcls Hlast.
  funelim (RendererPy.format_definition_name self d).
  - congruence.
  - exfalso. pose proof e0 as Hns.
    rewrite Hcls, filter_const in Hns. discriminate.
  - congruence.
Qed.

(** In [formatter.py] the comprehension tests each scope: a definition inside
    two messages of one proto is qualified by both. *)
Lemma formatter_py_name_two_levels
      (self : FormatterPy.Formatter) (d p outer inner : Defn) :
  scope_stack d = [p; outer; inner] ->
  class_of p = CProto -> class_of outer = CMessage -> class_of inner = CMessage ->
  FormatterPy.scopes_with_namespace self = FormatterPy.default_scopes_with_namespace ->
  FormatterPy._format_definition_name_inner_proto self d
  = join (FormatterPy.delimer_inner_proto self)
         [FormatterPy._get_definition_name outer;
          FormatterPy._get_definition_name inner;
          FormatterPy._get_definition_name d].
Proof.
  intros Hstack Hp Ho Hi Hns.
  assert (Hcls : forall x c cs, class_of x = c ->
                                isinstance x cs = existsb (issubclass c) cs)
    by (intros x c cs <-; reflexivity).
  unfold FormatterPy._format_definition_name_inner_proto.
  rewrite Hstack, Hns. cbn [filter].
  rewrite (Hcls p _ _ Hp), (Hcls outer _ _ Ho), (Hcls inner _ _ Hi).
  cbn [FormatterPy.default_scopes_with_namespace existsb issubclass issubclass_fuel
         Class_eqb base_class orb List.length Nat.leb rev app
         FormatterPy.namespace_items].
  rewrite (Hcls inner _ _ Hi), (Hcls outer _ _ Ho).
  cbn [existsb issubclass issubclass_fuel Class_eqb base_class orb
         FormatterPy.namespace_items].
  rewrite !(Hcls p _ _ Hp).
  reflexivity.
Qed.

(** C1: in [renderer.py], [format_definition_name] leaves a definition that
    sits inside [Outer] and [Inner] unqualified unless the definition is
    itself a message: the enum [field] resolves to [field], the message
    [field] to [Outer_Inner_field].  The sibling implementation in
    [formatter.py] resolves both to [Outer_Inner_field]. *)
Theorem renderer_py_nested_name_unqualified :
  RendererPy.format_definition_name Examples.old_formatter (Examples.field CEnum)
  = "field" /\
  map (fun c => RendererPy.format_definition_name
                  Examples.old_formatter (Examples.field c))
      [CAlias; CConstant; CIntegerConstant; CEnumField; CMessageField]
  = ["field"; "field"; "field"; "field"; "field"] /\
  RendererPy.format_definition_name Examples.old_formatter (Examples.field CMessage)
  = "Outer_Inner_field" /\
  FormatterPy._format_definition_name_inner_proto
    (Examples.c_like_formatter []) (Examples.field CEnum)
  = "Outer_Inner_field" /\
  FormatterPy._format_definition_name_inner_proto
    (Examples.c_like_formatter []) (Examples.field CMessage)
  = "Outer_Inner_field".
Proof.
  split; [|split; [|split; [|split]]].
  - rewrite (renderer_py_name_not_qualified _ _ Examples.Inner) by reflexivity.
    reflexivity.
  - reflexivity.
  - reflexivity.
  - reflexivity.
  - reflexivity.
Qed.

Section DefinitionNames.

Variables snake_case upper_case pascal_case : string -> string.

Abbreviation format_case_style' :=
  (FormatterPy.format_case_style snake_case upper_case pascal_case).
Abbreviation format_definition_name' :=
  (FormatterPy.format_definition_name snake_case upper_case pascal_case).

(** Without ancestors there is nothing to join. *)
Lemma formatter_py_inner_name_top_level (self : FormatterPy.Formatter) (d : Defn) :
  scope_stack d = [] ->
  FormatterPy._format_definition_name_inner_proto self d = name d.
Proof.
  intros Hstack. unfold FormatterPy._format_definition_name_inner_proto,
                   FormatterPy._get_definition_name.
  rewrite Hstack. reflexivity.
Qed.

(** C2 (amended): for a definition with an empty [scope_stack], no delimiter
    is joined in; [format_definition_name] of [formatter.py] returns the
    definition's own name converted by the case style of its class (or of
    the class passed in), hence the name unchanged when that class is absent
    from the case-style table; [format_definition_name] of [renderer.py]
    returns the name unchanged for every formatter. *)
Theorem format_definition_name_top_level
        (self : FormatterPy.Formatter) (d : Defn) (class_ : option Class) :
  scope_stack d = [] ->
  let resolved := match class_ with Some c => c | None => class_of d end in
  format_definition_name' self d class_ = format_case_style' self (name d) resolved /\
  (absent resolved (FormatterPy.case_style_mapping self) ->
   format_definition_name' self d class_ = Ok (name d)) /\
  (forall old : RendererPy.Formatter,
      RendererPy.format_definition_name old d = name d).
Proof.
  intros Hstack resolved.
  assert (Heq : format_definition_name' self d class_
                = format_case_style' self (name d) resolved).
  { unfold FormatterPy.format_definition_name,
      FormatterPy.format_definition_name_inner_proto.
    rewrite (formatter_py_inner_name_top_level self d Hstack), Hstack.
    fold resolved. simpl.
    destruct (format_case_style' self (name d) resolved); reflexivity. }
  split; [exact Heq|split].
  - intros Habs. rewrite Heq.
    apply format_case_style_absent. exact Habs.
  - intros old. apply renderer_py_name_top_level. exact Hstack.
Qed.

End DefinitionNames.

(** A constant outside every scope, under a table that gives constants a
    custom converter and under a table without an entry for them. *)
Lemma format_definition_name_top_level_witness :
  FormatterPy.format_definition_name
    Examples.snake_tag Examples.upper_tag Examples.pascal_tag
    (Examples.c_like_formatter Examples.suffix_mapping) Examples.lone_constant None
  = Ok "foo_t" /\
  FormatterPy.format_definition_name
    Examples.snake_tag Examples.upper_tag Examples.pascal_tag
    (Examples.c_like_formatter []) Examples.lone_constant None
  = Ok "foo" /\
  RendererPy.format_definition_name Examples.old_formatter Examples.lone_constant
  = "foo".
Proof.
  split; [|split].
  - apply (format_definition_name_top_level
             Examples.snake_tag Examples.upper_tag Examples.pascal_tag
             (Examples.c_like_formatter Examples.suffix_mapping)
             Examples.lone_constant None eq_refl).
  - apply (format_definition_name_top_level
             Examples.snake_tag Examples.upper_tag Examples.pascal_tag
             (Examples.c_like_formatter []) Examples.lone_constant None eq_refl).
    intros k v [].
  - apply (format_definition_name_top_level
             Examples.snake_tag Examples.upper_tag Examples.pascal_tag
             (Examples.c_like_formatter []) Examples.lone_constant None eq_refl).
Defined.

(** C2 as stated fails: with an empty [scope_stack] the name is not returned
    unchanged by every formatter.  Whatever the three converters of
    [bitproto.utils] are, a formatter whose table maps constants to a custom
    converter renames the constant [foo]. *)
Lemma format_definition_name_top_level_counterexample :
  ~ (forall (snake_case upper_case pascal_case : string -> string)
            (self : FormatterPy.Formatter) (d : Defn) (class_ : option Class),
        scope_stack d = [] ->
        FormatterPy.format_definition_name
          snake_case upper_case pascal_case self d class_ = Ok (name d)).
Proof.
  intros H.
  specialize (H Examples.snake_tag Examples.upper_tag Examples.pascal_tag
                (Examples.c_like_formatter Examples.suffix_mapping)
                Examples.lone_constant None eq_refl).
  discriminate H.
Qed.

(** ** Dispatch on an unrecognized variant *)

(** C3: on an input outside the closed variant sets, [format_type] and
    [format_constant_type] of [formatter.py] raise [InternalError], whereas
    [format_value] (and [format_literal]) falls off the end of its [if] chain
    and returns [None], and [format_type] of [renderer.py] returns the
    fallback string [_unknown_type]: neither of the last two raises. *)
Theorem dispatch_on_unrecognized_variant :
  (forall (self : FormatterPy.Formatter) (type_name : string),
      FormatterPy.format_value self (PyOther type_name) = Ok None) /\
  (forall (self : RendererPy.Formatter) (type_name : string),
      RendererPy.format_literal self (PyOther type_name) = Ok None) /\
  (forall self : RendererPy.Formatter,
      RendererPy.format_type self TOther = Ok "_unknown_type") /\
  (forall (snake_case upper_case pascal_case : string -> string)
          (self : FormatterPy.Formatter) (name : option string),
      FormatterPy.format_type snake_case upper_case pascal_case self TOther name
      = Raise InternalError) /\
  (forall (self : FormatterPy.Formatter) (u : nat) (n : string)
          (stack : list Defn) (ms : list (string * nat)),
      FormatterPy.format_constant_type self (Build_Defn u CConstant n stack ms)
      = Raise InternalError).
Proof.
  repeat split.
Qed.

(** On the closed variant sets the three dispatchers of [formatter.py] reach
    the matching hook. *)
Lemma format_constant_type_variants (self : FormatterPy.Formatter)
      (u : nat) (n : string) (stack : list Defn) (ms : list (string * nat)) :
  FormatterPy.format_constant_type self (Build_Defn u CBooleanConstant n stack ms)
  = FormatterPy.format_bool_value_type self /\
  FormatterPy.format_constant_type self (Build_Defn u CStringConstant n stack ms)
  = FormatterPy.format_string_value_type self /\
  FormatterPy.format_constant_type self (Build_Defn u CIntegerConstant n stack ms)
  = FormatterPy.format_int_value_type self.
Proof. repeat split. Qed.

(** ** The two phases of [render_string] *)

Lemma mapM_map {A B C : Type} (g : A -> B) (f : B -> result C) (l : list A) :
  mapM f (map g l) = mapM (fun a => f (g a)) l.
Proof.
  induction l as [|a l IH]; simpl; [reflexivity|].
  rewrite IH. reflexivity.
Qed.

(** The render loop appends the render-phase texts in list order and leaves
    every block rendered and collected. *)
Lemma render_loop_texts (formatter : RendererPy.Formatter)
      (blocks : list RendererPy.BlockObject) (strings : list string) :
  RendererPy.render_loop (RendererPy.set_formatters formatter blocks) strings
  = (rs <- mapM (render_phase_text formatter) blocks ;;
     Ok (strings ++ rs, map (after_render formatter) blocks)).
Proof.
  revert strings. induction blocks as [|b rest IH]; intros strings; simpl.
  - rewrite app_nil_r. reflexivity.
  - unfold render_phase_text at 1, after_render at 1.
    fold (attach formatter b).
    destruct (RendererPy.Block_render (attach formatter b)) as [self|e]; simpl;
      [|reflexivity].
    fold (RendererPy.set_formatters formatter rest). rewrite IH.
    destruct (mapM (render_phase_text formatter) rest) as [rs|e]; simpl;
      [|reflexivity].
    rewrite <- app_assoc. reflexivity.
Qed.

(** The defer loop appends one piece per block whose [defer] returns, none
    for a block whose [defer] raises [NotImplementedError]. *)
Lemma defer_loop_texts (blocks : list RendererPy.BlockObject) (strings : list string) :
  RendererPy.defer_loop blocks strings
  = (ds <- mapM defer_pieces blocks ;; Ok (strings ++ List.concat ds)).
Proof.
  revert strings. induction blocks as [|b rest IH]; intros strings; simpl.
  - rewrite app_nil_r. reflexivity.
  - unfold defer_pieces at 1.
    destruct (RendererPy.Block_defer b) as [self|e]; simpl.
    + rewrite IH.
      destruct (mapM defer_pieces rest) as [ds|e]; simpl; [|reflexivity].
      rewrite <- app_assoc. reflexivity.
    + destruct e; simpl; try reflexivity.
      rewrite IH.
      destruct (mapM defer_pieces rest) as [ds|e]; reflexivity.
Qed.

(** C4 (amended): [render_string] is the render-phase text of each block in
    list order, followed by the defer-phase text of each block in reverse
    list order, joined with a blank-line separator between every two
    adjacent pieces, empty or not; the first exception of a phase
    propagates, except that a [defer] raising [NotImplementedError]
    contributes no piece; a block that does not override [defer] contributes
    no piece and no error. *)
Theorem render_string_two_phases
        (cls : RendererPy.RendererClass) (self : RendererPy.Renderer) :
  RendererPy.render_string cls self
  = (rs <- mapM (render_phase_text (RendererPy.formatter cls))
               (RendererPy.blocks cls self) ;;
     ds <- mapM (defer_phase_text (RendererPy.formatter cls))
               (rev (RendererPy.blocks cls self)) ;;
     Ok (join (LF ++ LF)%string (rs ++ List.concat ds))) /\
  (forall (formatter : RendererPy.Formatter) (render : RendererPy.Method)
          (attributes : RendererPy.Block),
      defer_phase_text formatter
        {| RendererPy.block_class :=
             {| RendererPy.render_impl := render;
                RendererPy.defer_override := None |};
           RendererPy.block := attributes |}
      = Ok []).
Proof.
  split.
  - unfold RendererPy.render_string.
    rewrite render_loop_texts.
    destruct (mapM (render_phase_text (RendererPy.formatter cls))
                   (RendererPy.blocks cls self)) as [rs|e]; simpl; [|reflexivity].
    rewrite defer_loop_texts, <- map_rev, mapM_map.
    fold (defer_phase_text (RendererPy.formatter cls)).
    change (fun a => defer_pieces (after_render (RendererPy.formatter cls) a))
      with (defer_phase_text (RendererPy.formatter cls)).
    destruct (mapM (defer_phase_text (RendererPy.formatter cls))
                   (rev (RendererPy.blocks cls self))) as [ds|e]; reflexivity.
  - intros formatter render attributes.
    unfold defer_phase_text, defer_pieces, after_render, RendererPy.Block_defer.
    destruct (RendererPy.Block_render _); reflexivity.
Qed.

(** Render texts run forward, defer texts backward. *)
Example render_string_with_defers :
  RendererPy.render_string Examples.renderer_with_defers Examples.a_renderer
  = Ok (join (LF ++ LF)%string ["a"; "b"; "c"; "end c"; "end a"]).
Proof. reflexivity. Qed.

(** When no piece is empty, the join of the claim and the join of the code
    agree. *)
Lemma join_non_empty_all (pieces : list string) :
  Forall (fun s => s <> "") pieces ->
  join_non_empty pieces = join (LF ++ LF)%string pieces.
Proof.
  intros H. unfold join_non_empty. f_equal.
  induction H as [|s l Hs _ IH]; simpl; [reflexivity|].
  destruct (String.eqb_spec s "") as [E|_]; [contradiction|].
  simpl. rewrite IH. reflexivity.
Qed.

(** C4 as stated fails: a block whose [render] pushes nothing contributes an
    empty piece that still takes its separators, so the two lines around a
    [MessageEncoderBlock] end up four line feeds apart, not two. *)
Lemma render_string_empty_piece_counterexample :
  RendererPy.render_string Examples.renderer_with_empty_block Examples.a_renderer
  = Ok ("a" ++ LF ++ LF ++ LF ++ LF ++ "b")%string /\
  render_string_as_claimed Examples.renderer_with_empty_block Examples.a_renderer
  = Ok ("a" ++ LF ++ LF ++ "b")%string /\
  RendererPy.render_string Examples.renderer_with_empty_block Examples.a_renderer
  <> render_string_as_claimed Examples.renderer_with_empty_block Examples.a_renderer.
Proof.
  split; [reflexivity|split; [reflexivity|]].
  intros H. vm_compute in H. discriminate H.
Qed.

(** ** The registry and the top-level [render] *)

Section Registry.

Variable os_path_join : string -> string -> string.
Variable os_path_basename : string -> string.
Variable os_path_splitext : string -> string * string.
Variable os_path_dirname : string -> string.
Variable os_path_abspath : string -> string.
Variable os_getcwd : string.
Variables RendererC RendererCHeader RendererGo RendererPy_ : RendererPy.RendererClass.

Abbreviation get_renderer_cls :=
  (RendererPy.get_renderer_cls RendererC RendererCHeader RendererGo RendererPy_).
Abbreviation renderer_of :=
  (renderer_of os_path_join os_path_basename os_path_splitext
               os_path_dirname os_path_abspath os_getcwd).
Abbreviation render_each :=
  (RendererPy.render_each os_path_join os_path_basename os_path_splitext
                          os_path_dirname os_path_abspath os_getcwd).
Abbreviation render :=
  (RendererPy.render os_path_join os_path_basename os_path_splitext
                     os_path_dirname os_path_abspath os_getcwd
                     RendererC RendererCHeader RendererGo RendererPy_).

Abbreviation effects_of :=
  (effects_of os_path_join os_path_basename os_path_splitext
              os_path_dirname os_path_abspath os_getcwd).
Abbreviation renders :=
  (renders os_path_join os_path_basename os_path_splitext
           os_path_dirname os_path_abspath os_getcwd).

Lemma get_renderer_cls_registered (lang : string) :
  get_renderer_cls lang
  = if String.eqb "c" lang then Some [RendererC; RendererCHeader]
    else if String.eqb "go" lang then Some [RendererGo]
         else if String.eqb "py" lang then Some [RendererPy_]
              else None.
Proof. reflexivity. Qed.

Lemma get_renderer_cls_unregistered (lang : string) :
  lang <> "c" -> lang <> "go" -> lang <> "py" -> get_renderer_cls lang = None.
Proof.
  intros Hc Hgo Hpy. rewrite get_renderer_cls_registered.
  destruct (String.eqb_spec "c" lang); [congruence|].
  destruct (String.eqb_spec "go" lang); [congruence|].
  destruct (String.eqb_spec "py" lang); [congruence|].
  reflexivity.
Qed.

Lemma effects_of_rendered (proto : RendererPy.Proto) (outdir : option string)
      (cls : RendererPy.RendererClass) (content : string) :
  RendererPy.render_string cls (renderer_of proto outdir cls) = Ok content ->
  effects_of proto outdir cls
  = [RendererPy.Instantiate (RendererPy.class_name cls);
     RendererPy.WriteFile (RendererPy.out_filepath (renderer_of proto outdir cls))
                          content].
Proof.
  intros H. unfold effects_of, content_of. cbv zeta.
  fold (renderer_of proto outdir cls). rewrite H. reflexivity.
Qed.

(** The loop of [render] instantiates and renders the classes one after the
    other and appends their output paths. *)
Lemma render_each_all (proto : RendererPy.Proto) (outdir : option string)
      (clss : list RendererPy.RendererClass) :
  forall (outs : list string) (w : RendererPy.World),
    Forall (renders proto outdir w) clss ->
    render_each clss proto outdir outs w
    = (Ok (outs ++ map (fun cls =>
                          RendererPy.out_filepath (renderer_of proto outdir cls))
                       clss),
       {| RendererPy.writable := RendererPy.writable w;
          RendererPy.events :=
            RendererPy.events w ++ flat_map (effects_of proto outdir) clss |}).
Proof.
  induction clss as [|cls rest IH]; intros outs w Hall.
  - simpl. rewrite !app_nil_r. destruct w; reflexivity.
  - inversion Hall as [|? ? [[content Hcontent] Hw] Hrest]; subst.
    cbn [RendererPy.render_each map flat_map].
    fold (renderer_of proto outdir cls).
    unfold RendererPy.Renderer_render.
    rewrite Hcontent. cbn [RendererPy.emit RendererPy.writable].
    rewrite Hw, IH.
    + cbn [RendererPy.emit RendererPy.writable RendererPy.events].
      rewrite (effects_of_rendered proto outdir cls content Hcontent).
      cbn [app]. rewrite <- !app_assoc. reflexivity.
    + exact Hrest.
Qed.

(** C6: for a language tag that is not in the registry, [render] raises
    [UnsupportedLanguageToRender] and leaves the world as it was: no
    renderer is instantiated and no file is written.  For a registered tag
    whose renderers all render, it instantiates and renders each class in
    registry order and returns their output paths in that order. *)
Theorem render_by_language (proto : RendererPy.Proto) (lang : string)
        (outdir : option string) (w : RendererPy.World) :
  (lang <> "c" -> lang <> "go" -> lang <> "py" ->
   get_renderer_cls lang = None /\
   render proto lang outdir w = (Raise UnsupportedLanguageToRender, w)) /\
  (forall clss,
      get_renderer_cls lang = Some clss ->
      Forall (renders proto outdir w) clss ->
      render proto lang outdir w
      = (Ok (map (fun cls => RendererPy.out_filepath (renderer_of proto outdir cls))
                 clss),
         {| RendererPy.writable := RendererPy.writable w;
            RendererPy.events :=
              RendererPy.events w ++ flat_map (effects_of proto outdir) clss |})).
Proof.
  split.
  - intros Hc Hgo Hpy.
    pose proof (get_renderer_cls_unregistered lang Hc Hgo Hpy) as Hnone.
    split; [exact Hnone|].
    unfold RendererPy.render. rewrite Hnone. reflexivity.
  - intros clss Hsome Hall.
    unfold RendererPy.render. rewrite Hsome.
    rewrite (render_each_all proto outdir clss [] w Hall). reflexivity.
Qed.

End Registry.

(** The tag [c] gives the two files of the C backend, in registry order; the
    tag [rust] gives nothing. *)
Lemma render_by_language_witness :
  RendererPy.render
    Examples.join_path Examples.same_path Examples.no_extension
    Examples.same_path Examples.same_path "."
    Examples.renderer_with_empty_block Examples.renderer_with_defers
    Examples.renderer_go Examples.renderer_py
    Examples.unit_proto "c" (Some "out") Examples.fresh_world
  = (Ok ["out/example_bp.c"; "out/example_bp.h"],
     {| RendererPy.writable := fun _ => true;
        RendererPy.events :=
          [RendererPy.Instantiate "RendererC";
           RendererPy.WriteFile "out/example_bp.c"
                                ("a" ++ LF ++ LF ++ LF ++ LF ++ "b")%string;
           RendererPy.Instantiate "RendererCHeader";
           RendererPy.WriteFile
             "out/example_bp.h"
             (join (LF ++ LF)%string ["a"; "b"; "c"; "end c"; "end a"])] |}) /\
  RendererPy.render
    Examples.join_path Examples.same_path Examples.no_extension
    Examples.same_path Examples.same_path "."
    Examples.renderer_with_empty_block Examples.renderer_with_defers
    Examples.renderer_go Examples.renderer_py
    Examples.unit_proto "rust" (Some "out") Examples.fresh_world
  = (Raise UnsupportedLanguageToRender, Examples.fresh_world).
Proof.
  split.
  - destruct (render_by_language
                Examples.join_path Examples.same_path Examples.no_extension
                Examples.same_path Examples.same_path "."
                Examples.renderer_with_empty_block Examples.renderer_with_defers
                Examples.renderer_go Examples.renderer_py
                Examples.unit_proto "c" (Some "out") Examples.fresh_world)
      as [_ Hregistered].
    rewrite (Hregistered
               [Examples.renderer_with_empty_block; Examples.renderer_with_defers]
               eq_refl).
    + reflexivity.
    + repeat constructor; eexists; reflexivity.
  - destruct (render_by_language
                Examples.join_path Examples.same_path Examples.no_extension
                Examples.same_path Examples.same_path "."
                Examples.renderer_with_empty_block Examples.renderer_with_defers
                Examples.renderer_go Examples.renderer_py
                Examples.unit_proto "rust" (Some "out") Examples.fresh_world)
      as [Hunregistered _].
    apply Hunregistered; discriminate.
Defined.

(* ===================================================================== *)
(** * Further properties of the code                                      *)
(* ===================================================================== *)

(** ** Width selection: bounds *)

Section NumericWidthBounds.

Local Open Scope Z_scope.

(** The cases of the [if] chain, by ranges of the byte count. *)
Lemma get_nbits_of_integer_cases (n : Z) :
  let r := FormatterPy.get_nbits_of_integer (Build_Integer n) in
  (n = 1 /\ r = 8) \/ (n = 2 /\ r = 16) \/
  ((n = 3 \/ n = 4) /\ r = 32) \/ (5 <= n <= 8 /\ r = 64) \/
  ((n <= 0 \/ 9 <= n) /\ r = n * 8).
Proof.
  cbv zeta.
  assert (n <= 0 \/ n = 1 \/ n = 2 \/ n = 3 \/ n = 4 \/ n = 5 \/ n = 6 \/
          n = 7 \/ n = 8 \/ 9 <= n) as H by lia.
  destruct H as [H | [-> | [-> | [-> | [-> | [-> | [-> | [-> | [-> | H]]]]]]]]];
    try (cbn; lia).
  - right; right; right; right. split; [lia|].
    unfold FormatterPy.get_nbits_of_integer. simpl.
    repeat match goal with
           | |- context [?a =? ?b] => destruct (Z.eqb_spec a b); [lia|]
           end.
    reflexivity.
  - right; right; right; right. split; [lia|].
    apply get_nbits_of_integer_large. lia.
Qed.

(** X1: The selected width holds the declared bytes and is less than twice as
    wide; more bytes never select a narrower width. *)
Theorem get_nbits_of_integer_bounds (t t' : Integer) :
  1 <= nbytes t -> nbytes t <= nbytes t' ->
  nbytes t * 8 <= FormatterPy.get_nbits_of_integer t < nbytes t * 16 /\
  FormatterPy.get_nbits_of_integer t <= FormatterPy.get_nbits_of_integer t'.
Proof.
  destruct t as [n], t' as [m]; simpl. intros Hn Hm.
  pose proof (get_nbits_of_integer_cases n) as Hcn.
  pose proof (get_nbits_of_integer_cases m) as Hcm.
  cbv zeta in Hcn, Hcm. lia.
Qed.

Lemma get_nbits_of_integer_bounds_witness :
  3 * 8 <= FormatterPy.get_nbits_of_integer (Build_Integer 3) < 3 * 16 /\
  FormatterPy.get_nbits_of_integer (Build_Integer 3)
  <= FormatterPy.get_nbits_of_integer (Build_Integer 9).
Proof.
  apply (get_nbits_of_integer_bounds (Build_Integer 3) (Build_Integer 9));
    simpl; lia.
Defined.

End NumericWidthBounds.

(** ** Value dispatch: when nothing is returned *)

(** X2: For a formatter whose three literal hooks return a string,
    [format_value] and [format_literal] return no string exactly on a value
    that is neither a boolean, a string nor an integer; on a boolean they
    return the string of the boolean hook, on a string that of the string
    hook, and on an integer that is not a boolean that of the integer
    hook. *)
Theorem format_value_by_kind (value : Value) :
  (forall self : FormatterPy.Formatter,
      (FormatterPy.format_value self value = Ok None <-> recognized value = false) /\
      (forall b, value = PyBool b ->
                 FormatterPy.format_value self value
                 = Ok (Some (FormatterPy.format_bool_value self b))) /\
      (forall s, value = PyStr s ->
                 FormatterPy.format_value self value
                 = Ok (Some (FormatterPy.format_str_value self s))) /\
      (forall z, value = PyInt z ->
                 FormatterPy.format_value self value
                 = Ok (Some (FormatterPy.format_int_value self z)))) /\
  (forall self : RendererPy.Formatter,
      (RendererPy.format_literal self value = Ok None <-> recognized value = false) /\
      (forall b, value = PyBool b ->
                 RendererPy.format_literal self value
                 = Ok (Some (RendererPy.format_bool_literal self b))) /\
      (forall s, value = PyStr s ->
                 RendererPy.format_literal self value
                 = Ok (Some (RendererPy.format_str_literal self s))) /\
      (forall z, value = PyInt z ->
                 RendererPy.format_literal self value
                 = Ok (Some (RendererPy.format_int_literal self z)))).
Proof.
  split; intros self; (split; [split|split; [|split]]);
    try (intros ? ->; reflexivity);
    destruct value; simpl; try discriminate; reflexivity.
Qed.

Lemma format_value_by_kind_witness :
  FormatterPy.format_value (Examples.c_like_formatter []) (PyInt 1) = Ok (Some "1") /\
  FormatterPy.format_value (Examples.c_like_formatter []) (PyOther "float") = Ok None.
Proof.
  split.
  - destruct (format_value_by_kind (PyInt 1)) as [H _].
    destruct (H (Examples.c_like_formatter [])) as (_ & _ & _ & Hint).
    apply (Hint 1%Z). reflexivity.
  - destruct (format_value_by_kind (PyOther "float")) as [H _].
    destruct (H (Examples.c_like_formatter [])) as (Hnone & _).
    apply Hnone. reflexivity.
Defined.

(** ** Name resolution in [formatter.py]: closed forms *)

Lemma isinstance_two (s : Defn) (a b : Class) :
  isinstance s [a; b] = isinstance s [a] || isinstance s [b].
Proof.
  unfold isinstance. simpl. rewrite !orb_false_r. reflexivity.
Qed.

Lemma is_proto_class (s : Defn) : is_proto s = true -> class_of s = CProto.
Proof.
  unfold is_proto, isinstance. destruct (class_of s); simpl; congruence.
Qed.

Lemma is_message_class (s : Defn) : is_message s = true -> class_of s = CMessage.
Proof.
  unfold is_message, isinstance. destruct (class_of s); simpl; congruence.
Qed.

(** Under the default namespace classes, what the comprehension keeps of a
    list without protos is its messages. *)
Lemma filter_namespaces_no_proto (rest : list Defn) :
  Forall (fun s => is_proto s = false) rest ->
  filter (fun scope => isinstance scope FormatterPy.default_scopes_with_namespace) rest
  = filter is_message rest.
Proof.
  intros H. apply filter_ext_in. intros s Hin.
  rewrite Forall_forall in H. specialize (H s Hin).
  unfold FormatterPy.default_scopes_with_namespace. rewrite isinstance_two.
  fold (is_message s) (is_proto s). rewrite H, orb_false_r. reflexivity.
Qed.

(** The loop over the reversed namespaces takes every message it meets. *)
Lemma namespace_items_messages (l tail : list Defn) (items : list string) :
  Forall (fun s => is_message s = true) l ->
  FormatterPy.namespace_items (l ++ tail) items
  = FormatterPy.namespace_items
      tail (map FormatterPy._get_definition_name (rev l) ++ items).
Proof.
  revert items. induction l as [|a l IH]; intros items Hl.
  - reflexivity.
  - inversion Hl as [|? ? Ha Hl']; subst.
    cbn [app FormatterPy.namespace_items rev].
    assert (Hb : isinstance a [CBoundScope] = true).
    { unfold isinstance. rewrite (is_message_class a Ha). reflexivity. }
    rewrite Hb, IH by exact Hl'.
    rewrite map_app. simpl. rewrite <- app_assoc. reflexivity.
Qed.

(** The loop stops at a proto. *)
Lemma namespace_items_proto (p : Defn) (tail : list Defn) (items : list string) :
  is_proto p = true ->
  FormatterPy.namespace_items (p :: tail) items = items.
Proof.
  intros Hp. cbn [FormatterPy.namespace_items].
  unfold isinstance. rewrite (is_proto_class p Hp). reflexivity.
Qed.

(** X3: Inside one proto a definition is qualified by the messages between the
    innermost proto of its [scope_stack] and itself, outermost first, and by
    nothing else: scopes outside that proto and scopes that are not messages
    (enums) add no name. *)
Theorem inner_proto_name_closed_form
        (self : FormatterPy.Formatter) (d p : Defn) (pre rest : list Defn) :
  scope_stack d = pre ++ p :: rest ->
  is_proto p = true ->
  Forall (fun s => is_proto s = false) rest ->
  FormatterPy.scopes_with_namespace self = FormatterPy.default_scopes_with_namespace ->
  FormatterPy._format_definition_name_inner_proto self d
  = join (FormatterPy.delimer_inner_proto self)
         (map FormatterPy._get_definition_name (filter is_message rest)
              ++ [FormatterPy._get_definition_name d]).
Proof.
  intros Hstack Hp Hrest Hns.
  unfold FormatterPy._format_definition_name_inner_proto.
  rewrite Hstack, Hns, filter_app. cbn [filter].
  assert (Hkeep : isinstance p FormatterPy.default_scopes_with_namespace = true).
  { unfold FormatterPy.default_scopes_with_namespace. rewrite isinstance_two.
    fold (is_proto p). rewrite Hp. apply orb_true_r. }
  rewrite Hkeep, (filter_namespaces_no_proto rest Hrest).
  set (outer := filter _ pre). set (msgs := filter is_message rest).
  destruct (Nat.leb_spec (List.length (outer ++ p :: msgs)) 1) as [Hlen|Hlen].
  - rewrite length_app in Hlen. simpl in Hlen.
    destruct msgs; [reflexivity | simpl in Hlen; lia].
  - rewrite rev_app_distr. simpl. rewrite <- !app_assoc. simpl.
    rewrite namespace_items_messages.
    + rewrite rev_involutive, namespace_items_proto by exact Hp. reflexivity.
    + apply Forall_forall. intros s Hin. apply in_rev in Hin.
      unfold msgs in Hin. apply filter_In in Hin. tauto.
Qed.

(** An enum field inside an enum inside [Outer] is qualified by [Outer]
    only. *)
Lemma inner_proto_name_closed_form_witness :
  FormatterPy._format_definition_name_inner_proto
    (Examples.c_like_formatter []) MoreExamples.RED
  = "Outer_RED".
Proof.
  rewrite (inner_proto_name_closed_form
             (Examples.c_like_formatter []) MoreExamples.RED
             Examples.example_proto [] [Examples.Outer; MoreExamples.Color]
             eq_refl eq_refl).
  - reflexivity.
  - repeat constructor.
  - reflexivity.
Defined.

Lemma last_item_snoc {A : Type} (l : list A) (x : A) : last_item (l ++ [x]) = Some x.
Proof.
  induction l as [|a l IH]; [reflexivity|].
  simpl. rewrite IH. destruct (l ++ [x]) eqn:E; [|reflexivity].
  destruct l; discriminate.
Qed.

Lemma filter_none {A : Type} (f : A -> bool) (l : list A) :
  Forall (fun a => f a = false) l -> filter f l = [].
Proof.
  induction 1 as [|a l Ha _ IH]; simpl; [reflexivity|].
  rewrite Ha. exact IH.
Qed.

Lemma filter_nil_existsb {A : Type} (f : A -> bool) (l : list A) :
  (List.length (filter f l) <=? 0)%nat = negb (existsb f l).
Proof.
  induction l as [|a l IH]; simpl; [reflexivity|].
  destruct (f a); simpl; [reflexivity|exact IH].
Qed.

Section ImportedNames.

Variables snake_case upper_case pascal_case : string -> string.

(** X4: Across protos: the name resolved inside the proto is prefixed, through
    the cross-proto delimiter, with the name of the innermost proto of the
    [scope_stack], exactly when a second proto encloses that one and the
    language imports protos as members; the prefix is not case-converted. *)
Theorem format_definition_name_imported
        (self : FormatterPy.Formatter) (d p : Defn) (pre rest : list Defn)
        (class_ : option Class) (inner_name : string) :
  scope_stack d = pre ++ p :: rest ->
  is_proto p = true ->
  Forall (fun s => is_proto s = false) rest ->
  FormatterPy.format_definition_name_inner_proto
    snake_case upper_case pascal_case self d class_ = Ok inner_name ->
  FormatterPy.format_definition_name
    snake_case upper_case pascal_case self d class_
  = if existsb is_proto pre && FormatterPy.support_import_as_member self
    then Ok (FormatterPy._get_definition_name p
               ++ FormatterPy.delimer_cross_proto self ++ inner_name)%string
    else Ok inner_name.
Proof.
  intros Hstack Hp Hrest Hinner.
  unfold FormatterPy.format_definition_name. rewrite Hinner. cbn [bind].
  change (fun scope : Defn => isinstance scope [CProto]) with is_proto.
  rewrite Hstack, filter_app. cbn [filter]. rewrite Hp.
  rewrite (filter_none is_proto rest Hrest).
  rewrite length_app, Nat.add_comm. cbn [List.length Nat.add Nat.leb].
  rewrite filter_nil_existsb.
  destruct (existsb is_proto pre); simpl; [|reflexivity].
  destruct (FormatterPy.support_import_as_member self); simpl; [|reflexivity].
  rewrite last_item_snoc. reflexivity.
Qed.

End ImportedNames.

(** [Kind] of the imported proto keeps its own case and takes the prefix
    [lib], the name under which [example] imports [shared]. *)
Lemma format_definition_name_imported_witness :
  FormatterPy.format_definition_name
    Examples.snake_tag Examples.upper_tag Examples.pascal_tag
    (MoreExamples.importing_formatter [(CEnum, FormatterPy.EntryStr "upper")])
    MoreExamples.Kind None
  = Ok "lib.upper(Header_Kind)".
Proof.
  rewrite (format_definition_name_imported
             Examples.snake_tag Examples.upper_tag Examples.pascal_tag
             (MoreExamples.importing_formatter [(CEnum, FormatterPy.EntryStr "upper")])
             MoreExamples.Kind MoreExamples.shared
             [MoreExamples.importing_proto] [MoreExamples.Header]
             None "upper(Header_Kind)" eq_refl eq_refl).
  - reflexivity.
  - repeat constructor.
  - reflexivity.
Defined.

(** ** Name resolution in [renderer.py]: ancestors are ignored *)

(** X5: For a definition that is not itself of a namespace class, the
    [format_definition_name] of [renderer.py] is the name its immediate scope
    records for it (or its own name): no ancestor ever qualifies it. *)
Theorem renderer_py_name_ignores_ancestors (self : RendererPy.Formatter) (d : Defn) :
  isinstance d (RendererPy.scopes_with_namespace self) = false ->
  RendererPy.format_definition_name self d = FormatterPy._get_definition_name d.
Proof.
  intros Hcls. unfold FormatterPy._get_definition_name.
  destruct (last_item (scope_stack d)) as [scope|] eqn:Hlast.
  - apply renderer_py_name_not_qualified; assumption.
  - apply renderer_py_name_top_level.
    destruct (scope_stack d) as [|a l]; [reflexivity|].
    exfalso. clear -Hlast. revert a Hlast.
    induction l as [|b l IH]; intros a Hlast; [discriminate|].
    apply (IH b). exact Hlast.
Qed.

Lemma renderer_py_name_ignores_ancestors_witness :
  RendererPy.format_definition_name Examples.old_formatter MoreExamples.RED = "RED".
Proof.
  rewrite (renderer_py_name_ignores_ancestors Examples.old_formatter MoreExamples.RED).
  - reflexivity.
  - reflexivity.
Defined.

(** ** Case styles: tuples *)

Section CaseStyleTuples.

Variables snake_case upper_case pascal_case : string -> string.

Lemma from_name_unknown_style (name : string) :
  known_style name = false -> FormatterPy.from_name name = FormatterPy.KEEP.
Proof.
  unfold known_style. intros H.
  apply orb_false_iff in H. destruct H as [H Hp].
  apply orb_false_iff in H. destruct H as [Hs Hu].
  apply from_name_unrecognized; intros ->; discriminate.
Qed.

(** X7: The names of a tuple entry that are not style names are passed over: the
    tuple converts like the tuple of its style names alone. *)
Theorem format_case_style_tuple_known_names
        (self self' : FormatterPy.Formatter) (s : string) (class_ : Class)
        (names : list string) :
  table_entry self class_ = FormatterPy.EntryTuple names ->
  table_entry self' class_ = FormatterPy.EntryTuple (filter known_style names) ->
  FormatterPy.format_case_style snake_case upper_case pascal_case self s class_
  = FormatterPy.format_case_style snake_case upper_case pascal_case self' s class_.
Proof.
  intros H H'. unfold FormatterPy.format_case_style.
  fold (table_entry self class_) (table_entry self' class_).
  rewrite H, H'. f_equal.
  clear H H'. revert s. induction names as [|n rest IH]; intros s; simpl.
  - reflexivity.
  - destruct (known_style n) eqn:Hn; simpl.
    + apply IH.
    + rewrite (from_name_unknown_style n Hn). apply IH.
Qed.

(** X8: A tuple entry that is the concatenation of two tuples converts like the
    first tuple followed by the second. *)
Theorem format_case_style_tuple_composition
        (self self1 self2 : FormatterPy.Formatter) (s : string) (class_ : Class)
        (names1 names2 : list string) :
  table_entry self class_ = FormatterPy.EntryTuple (names1 ++ names2) ->
  table_entry self1 class_ = FormatterPy.EntryTuple names1 ->
  table_entry self2 class_ = FormatterPy.EntryTuple names2 ->
  FormatterPy.format_case_style snake_case upper_case pascal_case self s class_
  = (s1 <- FormatterPy.format_case_style
             snake_case upper_case pascal_case self1 s class_ ;;
     FormatterPy.format_case_style snake_case upper_case pascal_case self2 s1 class_).
Proof.
  intros H H1 H2. unfold FormatterPy.format_case_style.
  fold (table_entry self class_) (table_entry self1 class_) (table_entry self2 class_).
  rewrite H, H1, H2. simpl. f_equal. apply apply_case_styles_app.
Qed.

End CaseStyleTuples.

Lemma format_case_style_tuple_known_names_witness :
  FormatterPy.format_case_style
    Examples.snake_tag Examples.upper_tag Examples.pascal_tag
    (Examples.c_like_formatter
       [(CEnumField, FormatterPy.EntryTuple ["snake"; "Upper"; "upper"])])
    "Red" CEnumField
  = Ok "upper(snake(Red))".
Proof.
  rewrite (format_case_style_tuple_known_names
             Examples.snake_tag Examples.upper_tag Examples.pascal_tag
             (Examples.c_like_formatter
                [(CEnumField, FormatterPy.EntryTuple ["snake"; "Upper"; "upper"])])
             (Examples.c_like_formatter Examples.docstring_mapping)
             "Red" CEnumField ["snake"; "Upper"; "upper"]).
  - reflexivity.
  - reflexivity.
  - reflexivity.
Defined.

Lemma format_case_style_tuple_composition_witness :
  FormatterPy.format_case_style
    Examples.snake_tag Examples.upper_tag Examples.pascal_tag
    (Examples.c_like_formatter Examples.docstring_mapping) "Red" CEnumField
  = Ok "upper(snake(Red))".
Proof.
  rewrite (format_case_style_tuple_composition
             Examples.snake_tag Examples.upper_tag Examples.pascal_tag
             (Examples.c_like_formatter Examples.docstring_mapping)
             (Examples.c_like_formatter [(CEnumField, FormatterPy.EntryTuple ["snake"])])
             (Examples.c_like_formatter [(CEnumField, FormatterPy.EntryTuple ["upper"])])
             "Red" CEnumField ["snake"] ["upper"]).
  - reflexivity.
  - reflexivity.
  - reflexivity.
  - reflexivity.
Defined.

(** ** Blocks: [push], [push_string] and [collect] *)

Lemma string_append_assoc (a b c : string) :
  ((a ++ b) ++ c = a ++ (b ++ c))%string.
Proof.
  induction a as [|ch a IH]; simpl; [reflexivity|].
  rewrite IH. reflexivity.
Qed.

Lemma join_cons (sep a : string) (l : list string) :
  l <> [] -> join sep (a :: l) = (a ++ sep ++ join sep l)%string.
Proof.
  destruct l; [congruence|reflexivity].
Qed.

(** Appending to the last piece appends to the joined text. *)
Lemma join_snoc_append (sep x y : string) (l : list string) :
  join sep (l ++ [(x ++ y)%string]) = (join sep (l ++ [x]) ++ y)%string.
Proof.
  induction l as [|a l IH]; [reflexivity|].
  cbn [app].
  rewrite !join_cons by (destruct l; discriminate).
  rewrite IH, !string_append_assoc. reflexivity.
Qed.

Lemma indentation_nonpositive (f : RendererPy.Formatter) (i : Z) :
  (i <= 0)%Z -> indentation f i = "".
Proof.
  intros H. unfold indentation.
  replace (Z.to_nat i) with 0%nat by (destruct i; try reflexivity; lia).
  reflexivity.
Qed.

(** [push] with a formatter attached: one more line, indented. *)
Lemma push_attached (self : RendererPy.Block) (f : RendererPy.Formatter)
      (line : string) (ident_arg : option Z) :
  RendererPy._formatter self = Some f ->
  RendererPy.push self line ident_arg
  = Ok (with_strings
          self
          (RendererPy.strings self
             ++ [(indentation f (effective_ident self ident_arg) ++ line)%string])).
Proof.
  intros Hf. unfold RendererPy.push. fold (effective_ident self ident_arg).
  destruct (Z.gtb_spec (effective_ident self ident_arg) 0) as [Hpos|Hneg].
  - unfold RendererPy.formatter_of.
    destruct self as [strs fm idn]; simpl in Hf; subst fm. reflexivity.
  - rewrite indentation_nonpositive by lia. reflexivity.
Qed.

(** [push] without indentation never looks at the formatter. *)
Lemma push_unindented (self : RendererPy.Block) (line : string)
      (ident_arg : option Z) :
  (effective_ident self ident_arg <= 0)%Z ->
  RendererPy.push self line ident_arg
  = Ok (with_strings self (RendererPy.strings self ++ [line])).
Proof.
  intros Hi. unfold RendererPy.push. fold (effective_ident self ident_arg).
  destruct (Z.gtb_spec (effective_ident self ident_arg) 0) as [Hpos|Hneg];
    [lia|reflexivity].
Qed.

(** X9: [push] appends exactly one line and changes nothing else; the line is
    indented by [ident] copies of the indent character when [ident] is
    positive, which needs an attached formatter: without one the call raises
    [AssertionError]; a line that is not indented never needs a formatter. *)
Theorem push_outcome (self : RendererPy.Block) (line : string) (ident_arg : option Z) :
  ((effective_ident self ident_arg <= 0)%Z ->
   RendererPy.push self line ident_arg
   = Ok (with_strings self (RendererPy.strings self ++ [line]))) /\
  ((0 < effective_ident self ident_arg)%Z ->
   RendererPy._formatter self = None ->
   RendererPy.push self line ident_arg = Raise AssertionError) /\
  (forall f, RendererPy._formatter self = Some f ->
             RendererPy.push self line ident_arg
             = Ok (with_strings
                     self
                     (RendererPy.strings self
                        ++ [(repeat_string
                               (Z.to_nat (effective_ident self ident_arg))
                               (RendererPy.ident_character f) ++ line)%string]))).
Proof.
  split; [|split].
  - apply push_unindented.
  - intros Hpos Hnone. unfold RendererPy.push. fold (effective_ident self ident_arg).
    destruct (Z.gtb_spec (effective_ident self ident_arg) 0) as [_|Hneg]; [|lia].
    unfold RendererPy.formatter_of. rewrite Hnone. reflexivity.
  - intros f Hf. apply (push_attached self f line ident_arg Hf).
Qed.

Lemma push_outcome_witness :
  RendererPy.push (MoreExamples.indented_block ["{"]) "x;" None
  = Ok (MoreExamples.indented_block ["{"; "  x;"]) /\
  RendererPy.push (RendererPy.Block_init None 0) "x;" (Some 4%Z)
  = Raise AssertionError /\
  RendererPy.push (RendererPy.Block_init None 0) "x;" None
  = Ok (with_strings (RendererPy.Block_init None 0) ["x;"]).
Proof.
  split; [|split].
  - destruct (push_outcome (MoreExamples.indented_block ["{"]) "x;" None)
      as (_ & _ & H).
    apply (H Examples.old_formatter). reflexivity.
  - destruct (push_outcome (RendererPy.Block_init None 0) "x;" (Some 4%Z))
      as (_ & H & _).
    apply H; [reflexivity|reflexivity].
  - destruct (push_outcome (RendererPy.Block_init None 0) "x;" None)
      as (H & _ & _).
    apply H. simpl. lia.
Defined.

Lemma push_all_attached (f : RendererPy.Formatter) (lines : list string) :
  forall self : RendererPy.Block,
    RendererPy._formatter self = Some f ->
    push_all self lines
    = Ok (with_strings
            self
            (RendererPy.strings self
               ++ map (fun line => (indentation f (RendererPy.ident self) ++ line)%string)
                      lines)).
Proof.
  induction lines as [|line rest IH]; intros self Hf; simpl.
  - rewrite app_nil_r. destruct self; reflexivity.
  - rewrite (push_attached self f line None Hf). simpl.
    rewrite IH by exact Hf. unfold with_strings. simpl.
    rewrite <- app_assoc. reflexivity.
Qed.

(** X10: The lines pushed on a block come back from [collect] behind the lines
    that were there, in the order of the pushes, each with the block's
    indentation, separated by line feeds, and the buffer is empty again. *)
Theorem push_all_collect (self : RendererPy.Block) (f : RendererPy.Formatter)
        (lines : list string) :
  RendererPy._formatter self = Some f ->
  (b <- push_all self lines ;; Ok (RendererPy.collect b))
  = Ok (join LF (RendererPy.strings self
                   ++ map (fun line =>
                             (indentation f (RendererPy.ident self) ++ line)%string)
                          lines),
        with_strings self []).
Proof.
  intros Hf. rewrite (push_all_attached f lines self Hf). reflexivity.
Qed.

Lemma push_all_collect_witness :
  (b <- push_all (MoreExamples.indented_block ["{"]) ["x;"; "y;"] ;;
   Ok (fst (RendererPy.collect b)))
  = Ok ("{" ++ LF ++ "  x;" ++ LF ++ "  y;")%string.
Proof.
  pose proof (push_all_collect (MoreExamples.indented_block ["{"])
                               Examples.old_formatter ["x;"; "y;"] eq_refl) as H.
  destruct (push_all (MoreExamples.indented_block ["{"]) ["x;"; "y;"]) as [b|e];
    [|discriminate H].
  simpl in H |- *. injection H as H. rewrite H. reflexivity.
Defined.

Lemma push_string_empty (self : RendererPy.Block) (s separator : string) :
  RendererPy.strings self = [] ->
  RendererPy.push_string self s separator = Raise IndexError.
Proof.
  intros H. unfold RendererPy.push_string. rewrite H. reflexivity.
Qed.

Lemma push_string_nonempty (self : RendererPy.Block) (s separator : string) :
  RendererPy.strings self <> [] ->
  exists lines,
    RendererPy.push_string self s separator = Ok (with_strings self lines) /\
    join LF lines = (RendererPy.Block_str self ++ separator ++ s)%string /\
    List.length lines = List.length (RendererPy.strings self).
Proof.
  intros Hne. unfold RendererPy.push_string, RendererPy.Block_str.
  pose proof (rev_involutive (RendererPy.strings self)) as Hs.
  destruct (rev (RendererPy.strings self)) as [|last before].
  - exfalso. apply Hne. rewrite <- Hs. reflexivity.
  - simpl in Hs. rewrite <- Hs.
    exists (rev before ++ [join separator [last; s]]). split; [reflexivity|]. split.
    + change (join separator [last; s]) with (last ++ (separator ++ s))%string.
      rewrite join_snoc_append. reflexivity.
    + rewrite !length_app. reflexivity.
Qed.

(** X11: [push_string] raises [IndexError] on a block without lines; otherwise it
    extends the last line, so that the text of the block grows by the
    separator and the string, and the number of lines stays the same. *)
Theorem push_string_outcome (self : RendererPy.Block) (s separator : string) :
  (RendererPy.strings self = [] ->
   RendererPy.push_string self s separator = Raise IndexError) /\
  (RendererPy.strings self <> [] ->
   exists b,
     RendererPy.push_string self s separator = Ok b /\
     RendererPy.Block_str b = (RendererPy.Block_str self ++ separator ++ s)%string /\
     List.length (RendererPy.strings b) = List.length (RendererPy.strings self) /\
     RendererPy._formatter b = RendererPy._formatter self /\
     RendererPy.ident b = RendererPy.ident self).
Proof.
  split.
  - apply push_string_empty.
  - intros Hne.
    destruct (push_string_nonempty self s separator Hne) as (lines & Heq & Hstr & Hlen).
    exists (with_strings self lines). repeat split; assumption.
Qed.

Lemma push_string_outcome_witness :
  RendererPy.push_string (RendererPy.Block_init None 0) "// note" " "
  = Raise IndexError /\
  exists b,
    RendererPy.push_string (MoreExamples.indented_block ["{"; "  x;"]) "// note" " "
    = Ok b /\
    RendererPy.Block_str b = ("{" ++ LF ++ "  x; // note")%string.
Proof.
  split.
  - destruct (push_string_outcome (RendererPy.Block_init None 0) "// note" " ")
      as [H _].
    apply H. reflexivity.
  - destruct (push_string_outcome
                (MoreExamples.indented_block ["{"; "  x;"]) "// note" " ")
      as [_ H].
    destruct H as (b & Heq & Hstr & _); [discriminate|].
    exists b. split; [exact Heq|]. rewrite Hstr. reflexivity.
Defined.

(** ** Blocks bound to a definition *)

Lemma render_doc_loop_attached (f : RendererPy.Formatter) (comments : list string) :
  forall b : RendererPy.Block,
    RendererPy._formatter b = Some f ->
    BlockForDefinitionPy.render_doc_loop comments b
    = Ok (with_strings
            b
            (RendererPy.strings b
               ++ map (fun comment =>
                         (indentation f (RendererPy.ident b)
                            ++ RendererPy.format_comment f comment)%string)
                      comments)).
Proof.
  induction comments as [|comment rest IH]; intros b Hf; simpl.
  - rewrite app_nil_r. destruct b; reflexivity.
  - unfold RendererPy.formatter_of. rewrite Hf. cbn [bind].
    rewrite (push_attached b f _ None Hf). cbn [bind].
    rewrite IH by exact Hf. unfold with_strings. simpl.
    rewrite <- app_assoc. reflexivity.
Qed.

(** X12: [render_doc] pushes one formatted, indented comment line per comment of
    the definition, in their order; it needs the formatter as soon as there
    is a comment, and raises [AssertionError] when none is attached; without
    comments it leaves the block as it is. *)
Theorem render_doc_outcome (self : BlockForDefinitionPy.BlockForDefinition) :
  let b := BlockForDefinitionPy.base self in
  let comments :=
    BlockForDefinitionPy.comment_block (BlockForDefinitionPy.definition self) in
  (forall f,
      RendererPy._formatter b = Some f ->
      BlockForDefinitionPy.render_doc self
      = Ok (BlockForDefinitionPy.with_base
              self
              (with_strings
                 b
                 (RendererPy.strings b
                    ++ map (fun comment =>
                              (indentation f (RendererPy.ident b)
                                 ++ RendererPy.format_comment f comment)%string)
                           comments)))) /\
  (RendererPy._formatter b = None -> comments <> [] ->
   BlockForDefinitionPy.render_doc self = Raise AssertionError) /\
  (comments = [] -> BlockForDefinitionPy.render_doc self = Ok self).
Proof.
  cbv zeta. unfold BlockForDefinitionPy.render_doc. split; [|split].
  - intros f Hf. rewrite (render_doc_loop_attached f _ _ Hf). reflexivity.
  - intros Hnone Hne.
    destruct (BlockForDefinitionPy.comment_block
                (BlockForDefinitionPy.definition self)) as [|c rest];
      [congruence|].
    simpl. unfold RendererPy.formatter_of. rewrite Hnone. reflexivity.
  - intros ->. destruct self; reflexivity.
Qed.

(** X13: [push_location_doc] needs an attached formatter ([AssertionError]) and a
    line to extend ([IndexError]); it then appends, after one space, the
    comment holding the line number of the definition to the last line. *)
Theorem push_location_doc_outcome (self : BlockForDefinitionPy.BlockForDefinition) :
  let b := BlockForDefinitionPy.base self in
  (RendererPy._formatter b = None ->
   BlockForDefinitionPy.push_location_doc self = Raise AssertionError) /\
  (forall f,
      RendererPy._formatter b = Some f -> RendererPy.strings b = [] ->
      BlockForDefinitionPy.push_location_doc self = Raise IndexError) /\
  (forall f,
      RendererPy._formatter b = Some f -> RendererPy.strings b <> [] ->
      exists self',
        BlockForDefinitionPy.push_location_doc self = Ok self' /\
        RendererPy.Block_str (BlockForDefinitionPy.base self')
        = (RendererPy.Block_str b ++ " "
             ++ RendererPy.format_comment
                  f
                  ("@@L" ++ py_str_int
                              (BlockForDefinitionPy.lineno
                                 (BlockForDefinitionPy.definition self))))%string /\
        BlockForDefinitionPy.definition self' = BlockForDefinitionPy.definition self).
Proof.
  cbv zeta. unfold BlockForDefinitionPy.push_location_doc, RendererPy.formatter_of.
  split; [|split].
  - intros ->. reflexivity.
  - intros f -> Hempty. cbn [bind].
    rewrite push_string_empty by exact Hempty. reflexivity.
  - intros f -> Hne. cbn [bind].
    destruct (push_string_nonempty
                (BlockForDefinitionPy.base self)
                (RendererPy.format_comment
                   f (BlockForDefinitionPy.format_token_location
                        f (BlockForDefinitionPy.definition self)))
                " " Hne) as (lines & Heq & Hstr & _).
    rewrite Heq. cbn [bind].
    eexists. split; [reflexivity|]. split; [exact Hstr|reflexivity].
Qed.

Lemma render_doc_outcome_witness :
  (b <- BlockForDefinitionPy.render_doc
          (MoreExamples.documented_block (Some Examples.old_formatter) []) ;;
   Ok (RendererPy.strings (BlockForDefinitionPy.base b)))
  = Ok ["// Size limit."; "// In bytes."] /\
  BlockForDefinitionPy.render_doc (MoreExamples.documented_block None [])
  = Raise AssertionError.
Proof.
  destruct (render_doc_outcome
              (MoreExamples.documented_block (Some Examples.old_formatter) []))
    as (Hattached & _ & _).
  destruct (render_doc_outcome (MoreExamples.documented_block None []))
    as (_ & Hnone & _).
  split.
  - rewrite (Hattached Examples.old_formatter eq_refl). reflexivity.
  - apply Hnone; [reflexivity|discriminate].
Defined.

Lemma push_location_doc_outcome_witness :
  BlockForDefinitionPy.push_location_doc
    (MoreExamples.documented_block (Some Examples.old_formatter) [])
  = Raise IndexError /\
  BlockForDefinitionPy.push_location_doc
    (MoreExamples.documented_block None ["#define FOO 1"])
  = Raise AssertionError /\
  exists self',
    BlockForDefinitionPy.push_location_doc
      (MoreExamples.documented_block (Some Examples.old_formatter) ["#define FOO 1"])
    = Ok self' /\
    RendererPy.Block_str (BlockForDefinitionPy.base self')
    = "#define FOO 1 // @@L12".
Proof.
  split; [|split].
  - destruct (push_location_doc_outcome
                (MoreExamples.documented_block (Some Examples.old_formatter) []))
      as (_ & H & _).
    apply (H Examples.old_formatter); reflexivity.
  - destruct (push_location_doc_outcome
                (MoreExamples.documented_block None ["#define FOO 1"]))
      as (H & _ & _).
    apply H. reflexivity.
  - destruct (push_location_doc_outcome
                (MoreExamples.documented_block
                   (Some Examples.old_formatter) ["#define FOO 1"]))
      as (_ & _ & H).
    destruct (H Examples.old_formatter eq_refl) as (self' & Heq & Hstr & _);
      [discriminate|].
    exists self'. split; [exact Heq|]. rewrite Hstr. reflexivity.
Defined.

(** ** [render_string]: exceptions *)

Lemma mapM_app_ok {A B : Type} (f : A -> result B) (l1 l2 : list A) (bs : list B) :
  mapM f l1 = Ok bs ->
  mapM f (l1 ++ l2) = (bs2 <- mapM f l2 ;; Ok (bs ++ bs2)).
Proof.
  revert bs. induction l1 as [|a l1 IH]; intros bs H; simpl in *.
  - injection H as <-. destruct (mapM f l2); reflexivity.
  - destruct (f a) as [b|e]; simpl in *; [|discriminate].
    destruct (mapM f l1) as [bs1|e]; simpl in *; [|discriminate].
    injection H as <-. rewrite (IH bs1 eq_refl).
    destruct (mapM f l2); reflexivity.
Qed.

Lemma mapM_first_raise {A B : Type} (f : A -> result B) (l1 l2 : list A)
      (a : A) (bs : list B) (e : exn) :
  mapM f l1 = Ok bs -> f a = Raise e -> mapM f (l1 ++ a :: l2) = Raise e.
Proof.
  intros H1 Ha. rewrite (mapM_app_ok f l1 (a :: l2) bs H1). simpl.
  rewrite Ha. reflexivity.
Qed.

Lemma defer_pieces_not_NotImplementedError (b : RendererPy.BlockObject) (e : exn) :
  defer_pieces b = Raise e -> e <> NotImplementedError.
Proof.
  unfold defer_pieces. destruct (RendererPy.Block_defer b) as [self|e'].
  - discriminate.
  - destruct e'; intros H; inversion H; discriminate.
Qed.

(** X14: The first [render()] that raises ends [render_string] with its
    exception, whatever the exception is: a [NotImplementedError] of a block
    that does not override [render] is not caught, unlike one of [defer]. *)
Theorem render_string_render_raises
        (cls : RendererPy.RendererClass) (self : RendererPy.Renderer)
        (before after : list RendererPy.BlockObject) (b : RendererPy.BlockObject)
        (texts : list string) (e : exn) :
  RendererPy.blocks cls self = before ++ b :: after ->
  mapM (render_phase_text (RendererPy.formatter cls)) before = Ok texts ->
  render_phase_text (RendererPy.formatter cls) b = Raise e ->
  RendererPy.render_string cls self = Raise e.
Proof.
  intros Hblocks Hbefore Hb. unfold RendererPy.render_string.
  rewrite render_loop_texts, Hblocks.
  rewrite (mapM_first_raise _ before after b texts e Hbefore Hb). reflexivity.
Qed.

Lemma render_string_render_raises_witness :
  RendererPy.render_string MoreExamples.renderer_unrendered Examples.a_renderer
  = Raise NotImplementedError.
Proof.
  apply (render_string_render_raises
           MoreExamples.renderer_unrendered Examples.a_renderer
           [Examples.new_block (Examples.Line "a")] []
           (Examples.new_block MoreExamples.Unrendered) ["a"] NotImplementedError);
    reflexivity.
Defined.

(** X15: Once every block has rendered, the first [defer()] that raises anything
    but [NotImplementedError] ends [render_string] with that exception; a
    [NotImplementedError] never leaves the defer phase. *)
Theorem render_string_defer_raises
        (cls : RendererPy.RendererClass) (self : RendererPy.Renderer)
        (before after : list RendererPy.BlockObject) (b : RendererPy.BlockObject)
        (texts : list string) (pieces : list (list string)) (e : exn) :
  mapM (render_phase_text (RendererPy.formatter cls)) (RendererPy.blocks cls self)
  = Ok texts ->
  rev (RendererPy.blocks cls self) = before ++ b :: after ->
  mapM (defer_phase_text (RendererPy.formatter cls)) before = Ok pieces ->
  defer_phase_text (RendererPy.formatter cls) b = Raise e ->
  RendererPy.render_string cls self = Raise e /\ e <> NotImplementedError.
Proof.
  intros Hrender Hrev Hbefore Hb. split.
  - unfold RendererPy.render_string.
    rewrite render_loop_texts, Hrender. cbn [bind].
    rewrite defer_loop_texts, <- map_rev, mapM_map, Hrev.
    change (fun a => defer_pieces (after_render (RendererPy.formatter cls) a))
      with (defer_phase_text (RendererPy.formatter cls)).
    rewrite (mapM_first_raise _ before after b pieces e Hbefore Hb). reflexivity.
  - apply (defer_pieces_not_NotImplementedError _ e Hb).
Qed.

Lemma render_string_defer_raises_witness :
  RendererPy.render_string MoreExamples.renderer_bad_defer Examples.a_renderer
  = Raise IndexError /\ IndexError <> NotImplementedError.
Proof.
  apply (render_string_defer_raises
           MoreExamples.renderer_bad_defer Examples.a_renderer
           [] [Examples.new_block (Examples.Line "a")]
           (Examples.new_block MoreExamples.BadDefer) ["a"; "x"] [] IndexError);
    reflexivity.
Defined.

(** ** [render]: failures and output paths *)

Section RenderFailure.

Variable os_path_join : string -> string -> string.
Variable os_path_basename : string -> string.
Variable os_path_splitext : string -> string * string.
Variable os_path_dirname : string -> string.
Variable os_path_abspath : string -> string.
Variable os_getcwd : string.
Variables RendererC RendererCHeader RendererGo RendererPy_ : RendererPy.RendererClass.

Abbreviation renderer_of' :=
  (renderer_of os_path_join os_path_basename os_path_splitext
               os_path_dirname os_path_abspath os_getcwd).
Abbreviation effects_of' :=
  (effects_of os_path_join os_path_basename os_path_splitext
              os_path_dirname os_path_abspath os_getcwd).
Abbreviation renders' :=
  (renders os_path_join os_path_basename os_path_splitext
           os_path_dirname os_path_abspath os_getcwd).
Abbreviation fails_with' :=
  (fails_with os_path_join os_path_basename os_path_splitext
              os_path_dirname os_path_abspath os_getcwd).
Abbreviation render_each' :=
  (RendererPy.render_each os_path_join os_path_basename os_path_splitext
                          os_path_dirname os_path_abspath os_getcwd).
Abbreviation render' :=
  (RendererPy.render os_path_join os_path_basename os_path_splitext
                     os_path_dirname os_path_abspath os_getcwd
                     RendererC RendererCHeader RendererGo RendererPy_).

(** The loop of [render] over classes that all render, followed by more. *)
Lemma render_each_app (proto : RendererPy.Proto) (outdir : option string)
      (good more : list RendererPy.RendererClass) :
  forall (outs : list string) (w : RendererPy.World),
    Forall (renders' proto outdir w) good ->
    render_each' (good ++ more) proto outdir outs w
    = render_each' more proto outdir
        (outs ++ map (fun cls => RendererPy.out_filepath (renderer_of' proto outdir cls))
                     good)
        (grown w (flat_map (effects_of' proto outdir) good)).
Proof.
  induction good as [|cls rest IH]; intros outs w Hall.
  - simpl. unfold grown. rewrite !app_nil_r. destruct w; reflexivity.
  - inversion Hall as [|? ? [[content Hcontent] Hw] Hrest]; subst.
    cbn [app RendererPy.render_each map flat_map].
    fold (renderer_of' proto outdir cls).
    unfold RendererPy.Renderer_render.
    rewrite Hcontent. cbn [RendererPy.emit RendererPy.writable].
    rewrite Hw, IH.
    + unfold grown.
      cbn [RendererPy.emit RendererPy.writable RendererPy.events].
      rewrite (effects_of_rendered _ _ _ _ _ _ proto outdir cls content Hcontent).
      rewrite <- !List.app_assoc. reflexivity.
    + exact Hrest.
Qed.

(** X16: [render] is not atomic over the renderer classes of a language: when a
    class fails after others have rendered, the exception propagates, the
    files of the earlier classes stay written, the failing class has been
    instantiated but has written nothing, and no later class is touched. *)
Theorem render_failure_keeps_earlier_files
        (proto : RendererPy.Proto) (lang : string) (outdir : option string)
        (w : RendererPy.World)
        (good after : list RendererPy.RendererClass)
        (bad : RendererPy.RendererClass) (e : exn) :
  RendererPy.get_renderer_cls RendererC RendererCHeader RendererGo RendererPy_ lang
  = Some (good ++ bad :: after) ->
  Forall (renders' proto outdir w) good ->
  fails_with' proto outdir w bad e ->
  render' proto lang outdir w
  = (Raise e,
     grown w (flat_map (effects_of' proto outdir) good
                ++ [RendererPy.Instantiate (RendererPy.class_name bad)])).
Proof.
  intros Hlang Hgood Hbad. unfold RendererPy.render. rewrite Hlang.
  rewrite (render_each_app proto outdir good (bad :: after) [] w Hgood).
  cbn [RendererPy.render_each]. fold (renderer_of' proto outdir bad).
  unfold RendererPy.Renderer_render, grown.
  cbn [RendererPy.emit RendererPy.writable RendererPy.events].
  destruct Hbad as [Hraise | [[content Hcontent] [Hw ->]]].
  - rewrite Hraise. unfold RendererPy.emit.
    cbn [RendererPy.writable RendererPy.events].
    rewrite <- app_assoc. reflexivity.
  - rewrite Hcontent. cbn [RendererPy.emit RendererPy.writable RendererPy.events].
    rewrite Hw. unfold RendererPy.emit.
    cbn [RendererPy.writable RendererPy.events].
    rewrite <- app_assoc. reflexivity.
Qed.

(** X17: The two files of the C backend lie in one directory and share the base
    name; they differ in the extension of the renderer class only.  A
    non-empty [outdir] is that directory as given, and a proto that is not
    file-backed gives its own name as the base name. *)
Theorem render_c_paired_paths
        (proto : RendererPy.Proto) (outdir : option string) (w : RendererPy.World) :
  renders' proto outdir w RendererC ->
  renders' proto outdir w RendererCHeader ->
  exists directory base_name,
    fst (render' proto "c" outdir w)
    = Ok [os_path_join directory
                       (base_name ++ "_bp" ++ RendererPy.file_extension RendererC)%string;
          os_path_join directory
                       (base_name ++ "_bp"
                                  ++ RendererPy.file_extension RendererCHeader)%string] /\
    (forall o, outdir = Some o -> o <> "" -> directory = o) /\
    (RendererPy.truthy outdir = None ->
     RendererPy.truthy (RendererPy.filepath proto) = None ->
     directory = os_getcwd) /\
    (RendererPy.truthy (RendererPy.filepath proto) = None ->
     base_name = name (RendererPy.definition proto)) /\
    (forall path, RendererPy.truthy (RendererPy.filepath proto) = Some path ->
                  base_name = fst (os_path_splitext (os_path_basename path))).
Proof.
  intros HC HH.
  exists (RendererPy.outdir (renderer_of' proto outdir RendererC)).
  exists (match RendererPy.truthy (RendererPy.filepath proto) with
          | Some path => fst (os_path_splitext (os_path_basename path))
          | None => name (RendererPy.definition proto)
          end).
  split; [|split; [|split; [|split]]].
  - unfold RendererPy.render.
    change (RendererPy.get_renderer_cls RendererC RendererCHeader RendererGo
                                        RendererPy_ "c")
      with (Some [RendererC; RendererCHeader]).
    cbv beta iota.
    rewrite (render_each_all _ _ _ _ _ _ proto outdir [RendererC; RendererCHeader] [] w)
      by (constructor; [exact HC|constructor; [exact HH|constructor]]).
    reflexivity.
  - intros o -> Ho. unfold renderer_of, RendererPy.Renderer_init. simpl.
    destruct (String.eqb_spec o ""); [contradiction|reflexivity].
  - intros Hout Hfile. unfold renderer_of, RendererPy.Renderer_init. simpl.
    rewrite Hout. unfold RendererPy.get_outdir_default. rewrite Hfile. reflexivity.
  - intros ->. reflexivity.
  - intros path ->. reflexivity.
Qed.

End RenderFailure.

(** With only the [.c] file writable, rendering for [c] fails on the header
    and leaves the [.c] file behind. *)
Lemma render_failure_keeps_earlier_files_witness :
  RendererPy.render
    Examples.join_path Examples.same_path Examples.no_extension
    Examples.same_path Examples.same_path "."
    Examples.renderer_with_empty_block Examples.renderer_with_defers
    Examples.renderer_go Examples.renderer_py
    Examples.unit_proto "c" (Some "out") MoreExamples.c_only_world
  = (Raise OSError,
     {| RendererPy.writable := fun path => String.eqb path "out/example_bp.c";
        RendererPy.events :=
          [RendererPy.Instantiate "RendererC";
           RendererPy.WriteFile "out/example_bp.c"
                                ("a" ++ LF ++ LF ++ LF ++ LF ++ "b")%string;
           RendererPy.Instantiate "RendererCHeader"] |}).
Proof.
  rewrite (render_failure_keeps_earlier_files
             Examples.join_path Examples.same_path Examples.no_extension
             Examples.same_path Examples.same_path "."
             Examples.renderer_with_empty_block Examples.renderer_with_defers
             Examples.renderer_go Examples.renderer_py
             Examples.unit_proto "c" (Some "out") MoreExamples.c_only_world
             [Examples.renderer_with_empty_block] []
             Examples.renderer_with_defers OSError).
  - reflexivity.
  - reflexivity.
  - repeat constructor. eexists; reflexivity.
  - right. split; [eexists; reflexivity|]. split; reflexivity.
Defined.

Lemma render_c_paired_paths_witness :
  exists directory base_name,
    fst (RendererPy.render
           Examples.join_path Examples.same_path Examples.no_extension
           Examples.same_path Examples.same_path "."
           Examples.renderer_with_empty_block Examples.renderer_with_defers
           Examples.renderer_go Examples.renderer_py
           Examples.unit_proto "c" (Some "out") Examples.fresh_world)
    = Ok [Examples.join_path directory (base_name ++ "_bp" ++ ".c")%string;
          Examples.join_path directory (base_name ++ "_bp" ++ ".h")%string] /\
    directory = "out" /\ base_name = "example".
Proof.
  destruct (render_c_paired_paths
              Examples.join_path Examples.same_path Examples.no_extension
              Examples.same_path Examples.same_path "."
              Examples.renderer_with_empty_block Examples.renderer_with_defers
              Examples.renderer_go Examples.renderer_py
              Examples.unit_proto (Some "out") Examples.fresh_world)
    as (directory & base_name & Hpaths & Hdir & _ & Hbase & _).
  - split; [eexists; reflexivity|reflexivity].
  - split; [eexists; reflexivity|reflexivity].
  - exists directory, base_name. split; [exact Hpaths|]. split.
    + apply (Hdir "out"); [reflexivity|discriminate].
    + apply Hbase. reflexivity.
Defined.

(** ** Name resolution in [renderer.py]: nested messages *)

(** For a definition of a namespace class the comprehension keeps the whole
    [scope_stack], and the name is built from the formatted name of the
    innermost scope. *)
Lemma renderer_py_name_namespace_class
      (self : RendererPy.Formatter) (d scope : Defn) :
  isinstance d (RendererPy.scopes_with_namespace self) = true ->
  last_item (scope_stack d) = Some scope ->
  RendererPy.format_definition_name self d
  = let definition_name := str_or (get_name_by_member scope d) (name d) in
    if (List.length (scope_stack d) <=? 1)%nat then definition_name
    else if isinstance scope [CProto] then
           if negb (RendererPy.support_import self) then definition_name
           else join (RendererPy.delimer_cross_proto self)
                     [RendererPy.format_definition_name self scope; definition_name]
         else join (RendererPy.delimer_inner_proto self)
                   [RendererPy.format_definition_name self scope; definition_name].
Proof.
  intros Hcls Hlast.
  funelim (RendererPy.format_definition_name self d).
  - congruence.
  - pose proof e0 as Hns. rewrite Hcls, filter_const in Hns.
    assert (scope0 = scope) by congruence.
    assert (namespace = scope) by congruence.
    subst scope0 namespace.
    cbv zeta. rewrite Hcls, filter_const. reflexivity.
  - exfalso. pose proof e0 as Hns.
    rewrite Hcls, filter_const in Hns. congruence.
Qed.

Lemma join_snoc (sep y : string) (l : list string) :
  l <> [] -> join sep (l ++ [y]) = (join sep l ++ sep ++ y)%string.
Proof.
  induction l as [|a l IH]; intros Hne; [congruence|].
  destruct l as [|b l].
  - reflexivity.
  - cbn [app]. rewrite (join_cons sep a) by discriminate.
    change ((b :: l) ++ [y]) with (b :: l ++ [y]) in IH.
    rewrite IH by discriminate.
    rewrite (join_cons sep a (b :: l)) by discriminate.
    rewrite !string_append_assoc. reflexivity.
Qed.

Lemma message_chain_prefix (p : Defn) (ms : list Defn) (m : Defn) :
  message_chain p (ms ++ [m]) -> message_chain p ms.
Proof.
  intros H before x after ->.
  apply (H before x (after ++ [m])).
  rewrite <- app_assoc. reflexivity.
Qed.

(** X6: A message nested in messages of one proto is qualified by all of them:
    for messages the [format_definition_name] of [renderer.py] gives the
    names of the enclosing messages, outermost first, and the message's own,
    joined by the inner-proto delimiter. *)
Theorem renderer_py_name_of_nested_message
        (self : RendererPy.Formatter) (p : Defn) (ms : list Defn) (d : Defn) :
  RendererPy.scopes_with_namespace self = RendererPy.default_scopes_with_namespace ->
  message_chain p (ms ++ [d]) ->
  RendererPy.format_definition_name self d
  = join (RendererPy.delimer_inner_proto self)
         (map FormatterPy._get_definition_name (ms ++ [d])).
Proof.
  intros Hns. revert d.
  induction ms as [|m ms IH] using rev_ind; intros d Hchain.
  - destruct (Hchain [] d [] eq_refl) as [Hmsg Hstack].
    assert (Hcls : isinstance d (RendererPy.scopes_with_namespace self) = true).
    { rewrite Hns. unfold RendererPy.default_scopes_with_namespace.
      rewrite isinstance_two. fold (is_message d). rewrite Hmsg. reflexivity. }
    rewrite (renderer_py_name_namespace_class self d p Hcls)
      by (rewrite Hstack; reflexivity).
    cbv zeta. rewrite Hstack. simpl.
    unfold FormatterPy._get_definition_name. rewrite Hstack. reflexivity.
  - destruct (Hchain (ms ++ [m]) d [] eq_refl) as [Hmsg Hstack].
    assert (Hcls : isinstance d (RendererPy.scopes_with_namespace self) = true).
    { rewrite Hns. unfold RendererPy.default_scopes_with_namespace.
      rewrite isinstance_two. fold (is_message d). rewrite Hmsg. reflexivity. }
    assert (Hlast : last_item (scope_stack d) = Some m).
    { rewrite Hstack. change (p :: ms ++ [m]) with ((p :: ms) ++ [m]).
      apply last_item_snoc. }
    pose proof (message_chain_prefix p (ms ++ [m]) d Hchain) as Hchain'.
    destruct (Hchain' ms m [] eq_refl) as [Hm _].
    rewrite (renderer_py_name_namespace_class self d m Hcls Hlast).
    cbv zeta. rewrite Hstack.
    replace (List.length (p :: ms ++ [m]) <=? 1)%nat with false
      by (simpl; rewrite length_app; simpl;
          destruct (List.length ms); reflexivity).
    replace (isinstance m [CProto]) with false
      by (unfold isinstance; rewrite (is_message_class m Hm); reflexivity).
    rewrite (IH m Hchain').
    rewrite (map_app _ (ms ++ [m]) [d]). cbn [map].
    rewrite (join_snoc _ _ (map FormatterPy._get_definition_name (ms ++ [m])))
      by (rewrite map_app; destruct (map FormatterPy._get_definition_name ms);
          discriminate).
    unfold FormatterPy._get_definition_name at 3. rewrite Hlast. reflexivity.
Qed.

Lemma renderer_py_name_of_nested_message_witness :
  RendererPy.format_definition_name Examples.old_formatter (Examples.field CMessage)
  = "Outer_Inner_field".
Proof.
  rewrite (renderer_py_name_of_nested_message
             Examples.old_formatter Examples.example_proto
             [Examples.Outer; Examples.Inner] (Examples.field CMessage)).
  - reflexivity.
  - reflexivity.
  - intros before m after H.
    destruct before as [|b0 [|b1 [|b2 before]]]; inversion H; subst.
    + split; reflexivity.
    + split; reflexivity.
    + split; reflexivity.
    + destruct before; discriminate.
Defined.
